(** * News sentiment / stock return correlation pipeline

    A shallow embedding of [src/news_stock_correlation.py]
    (class [NewsStockCorrelation]) and of [load_data] of
    [src/stock_analyzer.py], and the properties of the calendar
    alignment, daily aggregation, return computation, join, correlation
    call and result assembly.

    Modelling conventions.
    - A [datetime.date] is its proleptic Gregorian ordinal, a [Z] between
      1 (0001-01-01) and [Date.MAXORDINAL] (9999-12-31); adding a
      [timedelta] past that range raises [OverflowError], as CPython does.
      The date of a news row is such a date or [NaT], the missing date of
      a blank cell.
    - A Python exception is a record of its class name and its message.
    - A computation either returns, raises, or is still running when its
      iteration budget ends ([OutOfFuel]); the only loop of the program is
      the [while] of [adjust_to_trading_day], which gets the budget that
      lets it end whenever it can end.
    - A float64 is a binary64 number of IEEE 754 ([spec_float] with 53
      bits of precision), and its operations round to nearest, ties to
      even, with signed zeros, infinities and NaN. A number that comes
      from outside (a closing price, a sentiment score) is given by its
      exact value, a rational, and [Float.of_Q] is the float64 that holds
      it.
    - The functions of the libraries that compute on the data (the
      polarity of TextBlob, the group mean of pandas, [pearsonr] of SciPy)
      are parameters of a run; [group_mean] is the group mean as pandas
      computes it and [scipy_pearsonr] holds the argument checks of
      [pearsonr].
    - A DataFrame is the list of its rows in row order, a row is a record
      with one field per column. *)

From Stdlib Require Import ZArith QArith List Ascii String Bool Lia Permutation Sorted.
From Stdlib Require Import SpecFloat.
Import ListNotations.

(** ** Python values, exceptions and outcomes *)

Module Py.

Record exn : Type := mk_exn { exn_class : string; exn_msg : string }.

Inductive outcome (A : Type) : Type :=
| Return (a : A)
| Raise (e : exn)
| OutOfFuel.

Arguments Return {A} a.
Arguments Raise {A} e.
Arguments OutOfFuel {A}.

Definition bind {A B : Type} (m : outcome A) (k : A -> outcome B) : outcome B :=
  match m with
  | Return a => k a
  | Raise e => Raise e
  | OutOfFuel => OutOfFuel
  end.

(** [Series.apply(f)]: [f] is called on the elements in order and the
    first exception aborts the whole call. *)
Fixpoint apply {A B : Type} (f : A -> outcome B) (l : list A) : outcome (list B) :=
  match l with
  | [] => Return []
  | x :: r => bind (f x) (fun y => bind (apply f r) (fun ys => Return (y :: ys)))
  end.

Definition OverflowError (msg : string) : exn := mk_exn "OverflowError" msg.
Definition ValueError (msg : string) : exn := mk_exn "ValueError" msg.
Definition AttributeError (msg : string) : exn := mk_exn "AttributeError" msg.

End Py.

Import Py.

Notation "x <- m ;; k" := (Py.bind m (fun x => k))
  (at level 61, m at next level, right associativity).

(** ** [datetime.date] and [NaT] *)

(** What [Timestamp.date()] gives for a cell of the column [date]: the
    date, or [NaT] for a missing one. *)
Inductive pydate : Type :=
| NaT
| Day (ordinal : Z).

Module Date.

Definition MAXORDINAL : Z := 3652059.

Definition valid (d : Z) : Prop := (1 <= d <= MAXORDINAL)%Z.

(** [date + timedelta(days=n)]; [NaT + timedelta] is [NaT]. *)
Definition add_days (date : pydate) (n : Z) : outcome pydate :=
  match date with
  | NaT => Return NaT
  | Day d =>
      let o := (d + n)%Z in
      if (0 <? o)%Z && (o <=? MAXORDINAL)%Z then Return (Day o)
      else Raise (OverflowError "date value out of range")
  end.

End Date.

(** ** Calendar alignment ([align_dates]) *)

(** [Series.unique()]: the distinct values, in order of first appearance. *)
Fixpoint unique_from (seen : list Z) (l : list Z) : list Z :=
  match l with
  | [] => []
  | x :: r =>
      if existsb (Z.eqb x) seen then unique_from seen r
      else x :: unique_from (x :: seen) r
  end.

Definition unique (l : list Z) : list Z := unique_from [] l.

(** [date in trading_days]: [NaT] equals nothing, itself included. *)
Definition date_in (date : pydate) (trading_days : list Z) : bool :=
  match date with
  | NaT => false
  | Day d => existsb (Z.eqb d) trading_days
  end.

(** The [while] loop of [adjust_to_trading_day], run for at most [fuel]
    evaluations of its condition. The date that is returned is in the
    calendar, so it is not [NaT]. *)
Fixpoint adjust_loop (fuel : nat) (trading_days : list Z) (date : pydate) : outcome Z :=
  match fuel with
  | O => OutOfFuel
  | S fuel' =>
      if negb (date_in date trading_days) then
        date' <- Date.add_days date 1 ;;
        adjust_loop fuel' trading_days date'
      else
        match date with
        | Day d => Return d
        | NaT => OutOfFuel
        end
  end.

(** The number of dates from [date] to 9999-12-31: every iteration moves
    the date one day forward, so the loop cannot evaluate its condition
    more often than that ([adjust_loop_ends]). On [NaT] no number of
    iterations ends the loop ([adjust_loop_NaT]). *)
Definition lookahead (date : pydate) : nat :=
  match date with
  | Day d => S (Z.to_nat (Date.MAXORDINAL - d))
  | NaT => O
  end.

Definition adjust_to_trading_day (trading_days : list Z) (date : pydate) : outcome Z :=
  adjust_loop (lookahead date) trading_days date.

(** The latest date of a calendar (0 for the empty one). *)
Definition max_date (trading_days : list Z) : Z :=
  fold_right Z.max 0%Z trading_days.

(** [align_dates]: the calendar is the set of dates of the price rows, and
    every news row gets the column [aligned_date]. On a price table
    without rows the column [Date] holds no dates, and its [.dt] raises
    before any news row is looked at. *)

Record news_row : Type :=
  mk_news { date : pydate; headline : string; publisher : string }.

Record price_row : Type := mk_price { Date : Z; Close : Q }.

Record aligned_row : Type := mk_aligned { news : news_row; aligned_date : Z }.

Definition align_dates (news_df : list news_row) (stock_df : list price_row)
  : outcome (list aligned_row) :=
  match stock_df with
  | [] =>
      Raise (AttributeError "Can only use .dt accessor with datetimelike values")
  | _ :: _ =>
      let trading_days := unique (map Date stock_df) in
      Py.apply (fun r => d <- adjust_to_trading_day trading_days (date r) ;;
                         Return (mk_aligned r d))
               news_df
  end.

(** ** Sentiment scoring ([analyze_sentiment]) *)

Record scored_row : Type := mk_scored { aligned : aligned_row; sentiment : Q }.

(** [polarity] stands for [TextBlob(str(text)).sentiment.polarity]. *)
Definition analyze_sentiment (polarity : string -> Q) (news_df : list aligned_row)
  : list scored_row :=
  map (fun r => mk_scored r (polarity (headline (news r)))) news_df.

(** ** float64 values *)

Module Float.

Definition prec : Z := 53.
Definition emax : Z := 1024.

Definition t : Type := spec_float.

Definition NaN : t := S754_nan.

Definition isnan (x : t) : bool :=
  match x with S754_nan => true | _ => false end.

Definition isinf (x : t) : bool :=
  match x with S754_infinity _ => true | _ => false end.

Definition iszero (x : t) : bool :=
  match x with S754_zero _ => true | _ => false end.

Definition add : t -> t -> t := SFadd prec emax.
Definition sub : t -> t -> t := SFsub prec emax.
Definition mul : t -> t -> t := SFmul prec emax.
Definition div : t -> t -> t := SFdiv prec emax.

(** [x == y] on floats: a [NaN] equals nothing, and the two zeros are
    equal. *)
Definition eqb : t -> t -> bool := SFeqb.

(** The float64 of an integer. *)
Definition of_Z (n : Z) : t := binary_normalize prec emax n 0 false.

Definition of_nat (n : nat) : t := of_Z (Z.of_nat n).

(** The float64 of a rational: numerator over denominator, rounded once;
    the rational itself when it is a float64. *)
Definition of_Q (q : Q) : t :=
  match Qnum q with
  | Z0 => S754_zero false
  | Zpos n => div (S754_finite false n 0) (S754_finite false (Qden q) 0)
  | Zneg n => div (S754_finite true n 0) (S754_finite false (Qden q) 0)
  end.

(** The sign bit: [true] for a negative number, for -0.0 and for -inf. *)
Definition signbit (x : t) : bool :=
  match x with
  | S754_zero s | S754_infinity s | S754_finite s _ _ => s
  | S754_nan => false
  end.

Definition zero : t := S754_zero false.
Definition one : t := of_Z 1.
Definition hundred : t := of_Z 100.

End Float.

(** ** Daily aggregation ([groupby('aligned_date')['sentiment'].agg(['mean', 'count'])]) *)

(** The aggregation [mean] is a function of pandas: what it returns for
    the values of one group, given in row order. *)
Definition aggregation : Type := list Float.t -> Float.t.

(** A group: the sentiment values of its rows, in row order. *)
Definition group : Type := list Float.t.

(** The groups are kept in ascending order of their key, as [groupby]
    (with [sort=True], the default) returns them. *)
Fixpoint agg_insert (k : Z) (s : Q) (acc : list (Z * group)) : list (Z * group) :=
  match acc with
  | [] => [(k, [Float.of_Q s])]
  | (k', g) :: rest =>
      if (k <? k')%Z then (k, [Float.of_Q s]) :: acc
      else if (k =? k')%Z then (k', g ++ [Float.of_Q s]) :: rest
      else (k', g) :: agg_insert k s rest
  end.

Definition groupby (news_df : list scored_row) : list (Z * group) :=
  fold_left (fun acc r => agg_insert (aligned_date (aligned r)) (sentiment r) acc)
            news_df [].

(** A row of [daily_sentiment]: the index [day] is the aligned date. The
    aggregation [count] is the number of values of the group, none of
    which is missing. *)
Record sentiment_row : Type :=
  mk_sentiment { day : Z; avg_sentiment : Float.t; news_count : nat }.

Definition daily_sentiment (mean : aggregation) (news_df : list scored_row)
  : list sentiment_row :=
  map (fun kg => mk_sentiment (fst kg) (mean (snd kg)) (List.length (snd kg)))
      (groupby news_df).

(** The mean of a group as the group kernel of pandas ([group_mean], in
    recent versions) computes it, which is part of pandas and not of this
    repository: a compensated (Kahan) summation of the values in row
    order, with the running sum [sumx], the [compensation] and the number
    [nobs] of values, and then [sumx / nobs]. *)
Record kahan : Type :=
  mk_kahan { sumx : Float.t; compensation : Float.t; nobs : nat }.

Definition kahan_zero : kahan := mk_kahan Float.zero Float.zero O.

(** One value added:
    [y = val - compensation; t = sumx + y;
     compensation = t - sumx - y; sumx = t],
    where a compensation that is NaN is reset to 0. *)
Definition group_add (g : kahan) (val : Float.t) : kahan :=
  let y := Float.sub val (compensation g) in
  let t := Float.add (sumx g) y in
  let c := Float.sub (Float.sub t (sumx g)) y in
  mk_kahan t (if Float.isnan c then Float.zero else c) (S (nobs g)).

Definition group_mean : aggregation :=
  fun vals =>
    let g := fold_left group_add vals kahan_zero in
    if (nobs g =? 0)%nat then Float.NaN
    else Float.div (sumx g) (Float.of_nat (nobs g)).

(** The mean by plain summation, as a kernel without compensation
    computes it: the values added from left to right, each sum rounded,
    and the total divided by their number. *)
Definition plain_mean : aggregation :=
  fun vals =>
    match vals with
    | [] => Float.NaN
    | _ :: _ => Float.div (fold_left Float.add vals Float.zero)
                          (Float.of_nat (List.length vals))
    end.

(** ** Daily returns ([pct_change() * 100]) *)

(** [Series.shift(1)] *)
Definition shift1 (l : list Float.t) : list Float.t :=
  firstn (List.length l) (Float.NaN :: l).

(** [Series.pct_change()]: [data / data.shift(1) - 1] *)
Definition pct_change (l : list Float.t) : list Float.t :=
  map (fun cp => Float.sub (Float.div (fst cp) (snd cp)) Float.one)
      (combine l (shift1 l)).

(** A price row with the columns [daily_return] and [date_only]. *)
Record return_row : Type :=
  mk_return { bar : price_row; daily_return : Float.t; date_only : Z }.

Definition daily_returns (stock_df : list price_row) : list Float.t :=
  map (fun r => Float.mul r Float.hundred)
      (pct_change (map (fun b => Float.of_Q (Close b)) stock_df)).

Definition with_returns (stock_df : list price_row) : list return_row :=
  map (fun br => mk_return (fst br) (snd br) (Date (fst br)))
      (combine stock_df (daily_returns stock_df)).

(** ** Join ([pd.merge(..., how='inner')] and [dropna]) *)

(** A merged row is a row of [daily_sentiment] next to the price row of
    the same day. *)
Record merged_row : Type := mk_merged { lhs : sentiment_row; rhs : return_row }.

(** Inner join of the left index with the right column [date_only]: the
    order of the left keys is kept, and a left row is paired with every
    right row of its key, in the order of the right rows. *)
Definition merge (l : list sentiment_row) (r : list return_row) : list merged_row :=
  flat_map (fun s => map (mk_merged s)
                         (filter (fun x => (date_only x =? day s)%Z) r))
           l.

(** [dropna(subset=['daily_return'])] *)
Definition dropna (df : list merged_row) : list merged_row :=
  filter (fun m => negb (Float.isnan (daily_return (rhs m)))) df.

(** The price rows that [dropna] keeps. *)
Definition defined_return (r : return_row) : bool :=
  negb (Float.isnan (daily_return r)).

Definition calculate_daily_metrics (mean : aggregation)
           (news_df : list scored_row) (stock_df : list price_row)
  : list merged_row :=
  dropna (merge (daily_sentiment mean news_df) (with_returns stock_df)).

(** ** Correlation ([calculate_correlation]) *)

Definition correlation : Type :=
  list Float.t -> list Float.t -> outcome (Float.t * Float.t).

(** [pearsonr] is [scipy.stats.pearsonr], a library function. *)
Definition calculate_correlation (pearsonr : correlation) (merged_df : list merged_row)
  : outcome (Float.t * Float.t) :=
  pearsonr (map (fun m => avg_sentiment (lhs m)) merged_df)
           (map (fun m => daily_return (rhs m)) merged_df).

(** [(x == x[0]).all()] *)
Definition is_constant (x : list Float.t) : bool :=
  match x with
  | [] => true
  | x0 :: _ => forallb (fun v => Float.eqb v x0) x
  end.

(** The argument checks of [scipy.stats.pearsonr], which is not part of
    this repository, as its documentation gives them: inputs shorter than
    2 raise [ValueError], and a constant input gives [nan] for both
    results (with a [ConstantInputWarning]). Every other input is left to
    [generic]. *)
Definition scipy_pearsonr (generic : correlation) : correlation :=
  fun x y =>
    let n := List.length x in
    if negb (n =? List.length y)%nat then
      Raise (ValueError "`x` and `y` must have the same length along `axis`.")
    else if (n <? 2)%nat then
      Raise (ValueError "`x` and `y` must have length at least 2.")
    else if is_constant x || is_constant y then
      Return (Float.NaN, Float.NaN)
    else generic x y.

(** ** The whole run ([run_analysis]) *)

Inductive pyval : Type :=
| VStr (s : string)
| VFloat (x : Float.t)
| VInt (n : Z).

(** A [dict] with string keys, in insertion order. *)
Definition dict : Type := list (string * pyval).

(** A file read by [pd.read_csv]: its header and its rows. *)
Record csv (row : Type) : Type := mk_csv { columns : list string; rows : list row }.

Arguments mk_csv {row} _ _.
Arguments columns {row} _.
Arguments rows {row} _.

(** What a run takes from outside the program: the file system, the two
    input files, and the library functions. For a call that returns
    nothing, [None] is success and [Some e] the exception raised. *)
Record world : Type := mk_world {
  makedirs : string -> option exn;
  read_news : outcome (csv news_row);
  read_stock : outcome (csv price_row);
  polarity : string -> Q;
  mean : aggregation;
  pearsonr : correlation;
  to_csv : string -> list merged_row -> option exn;
  visualize_results : string -> list scored_row -> list merged_row -> option exn
}.

Definition has_columns (required present : list string) : bool :=
  forallb (fun c => existsb (String.eqb c) present) required.

(** [load_data]: [None] when it returns [False]. *)
Definition load_data (w : world) : option (list news_row * list price_row) :=
  match read_news w with
  | Return news_df =>
      if negb (has_columns ["date"; "headline"; "publisher"]%string (columns news_df))
      then None
      else
        match read_stock w with
        | Return stock_df =>
            if negb (has_columns ["Date"; "Close"]%string (columns stock_df)) then None
            else Some (rows news_df, rows stock_df)
        | _ => None
        end
  | _ => None
  end.

Definition call (r : option exn) : outcome unit :=
  match r with
  | None => Return tt
  | Some e => Raise e
  end.

Definition startswith_slash (s : string) : bool :=
  match s with
  | String c _ => Ascii.eqb c "/"%char
  | EmptyString => false
  end.

Fixpoint endswith_slash (s : string) : bool :=
  match s with
  | EmptyString => false
  | String c EmptyString => Ascii.eqb c "/"%char
  | String _ r => endswith_slash r
  end.

(** [os.path.join(a, b)] on POSIX *)
Definition path_join (a b : string) : string :=
  if startswith_slash b then b
  else if String.eqb a "" || endswith_slash a then (a ++ b)%string
  else (a ++ "/" ++ b)%string.

(** The body of the [try] of [run_analysis]. *)
Definition run_analysis_try (w : world) (symbol output_dir : string) : outcome dict :=
  _ <- call (makedirs w output_dir) ;;
  match load_data w with
  | None => Return [("error"%string, VStr "Data loading failed")]
  | Some (news_df, stock_df) =>
      news_df <- align_dates news_df stock_df ;;
      let news_df := analyze_sentiment (polarity w) news_df in
      let merged_df := calculate_daily_metrics (mean w) news_df stock_df in
      cp <- calculate_correlation (pearsonr w) merged_df ;;
      let merged_path := path_join output_dir (symbol ++ "_news_stock_merged.csv")%string in
      _ <- call (to_csv w merged_path merged_df) ;;
      let viz_path := path_join output_dir (symbol ++ "_correlation_plot.png")%string in
      _ <- call (visualize_results w viz_path news_df merged_df) ;;
      Return [("symbol"%string, VStr symbol);
              ("correlation"%string, VFloat (fst cp));
              ("p_value"%string, VFloat (snd cp));
              ("num_observations"%string, VInt (Z.of_nat (List.length merged_df)));
              ("merged_data_path"%string, VStr merged_path);
              ("visualization_path"%string, VStr viz_path)]
  end.

(** [except Exception as e: return {"error": str(e)}] *)
Definition run_analysis (w : world) (symbol output_dir : string) : outcome dict :=
  match run_analysis_try w symbol output_dir with
  | Raise e => Return [("error"%string, VStr (exn_msg e))]
  | r => r
  end.

(** ** Sample runs *)

Definition sample_news : list news_row :=
  [mk_news (Day 737582) "good" "p"; mk_news (Day 737585) "bad" "q"].

Definition sample_stock : list price_row :=
  [mk_price 737581 100; mk_price 737584 110; mk_price 737585 99].

Definition sample_polarity (text : string) : Q :=
  if String.eqb text "good" then 1 # 2 else - (1 # 2).

Definition disk_full : exn :=
  mk_exn "OSError" "[Errno 28] No space left on device".

(** A run in which writing the merged table ([csv_error]) or rendering
    the plot ([plot_error]) may fail, and nothing else does. *)
Definition sample_world (csv_error plot_error : option exn) : world :=
  mk_world (fun _ => None)
           (Return (mk_csv ["date"; "headline"; "publisher"]%string sample_news))
           (Return (mk_csv ["Date"; "Close"]%string sample_stock))
           sample_polarity
           group_mean
           (scipy_pearsonr (fun _ _ => Return (Float.one, Float.one)))
           (fun _ _ => csv_error)
           (fun _ _ _ => plot_error).

(** ** [src/stock_analyzer.py]: [StockAnalyzer.load_data] *)

Module StockAnalyzer.

Section Analyzer.

(** The rows of the price file are kept abstract; [sort_values] stands
    for [DataFrame.sort_values('Date')] followed by [reset_index], which
    reorders the rows and leaves the columns as they are. *)
Variable row : Type.
Variable sort_values : list row -> list row.

(** The object: its [symbol], the table [self.df], and what it has
    printed so far. *)
Record analyzer : Type := mk_analyzer {
  symbol : string;
  df : csv row;
  printed : list string
}.

(** [StockAnalyzer(symbol, file_path)]: [self.df] is an empty DataFrame. *)
Definition init (symbol : string) : analyzer :=
  mk_analyzer symbol (mk_csv [] []) [].

Definition required_columns : list string :=
  ["Open"; "High"; "Low"; "Close"; "Volume"]%string.

(** The [for] loop over [required_columns]: the first column that is not
    in the table raises. *)
Fixpoint check_columns (required present : list string) : outcome unit :=
  match required with
  | [] => Return tt
  | col :: rest =>
      if negb (existsb (String.eqb col) present) then
        Raise (ValueError ("Missing required column: " ++ col))
      else check_columns rest present
  end.

(** [print(f"[{self.symbol}] Error loading data: {e}")] *)
Definition error_line (symbol : string) (e : exn) : string :=
  ("[" ++ symbol ++ "] Error loading data: " ++ exn_msg e)%string.

(** [load_data]: [read_csv] is the outcome of
    [pd.read_csv(self.file_path, parse_dates=['Date'])]. The result is the
    returned boolean and the object after the call. *)
Definition load_data (read_csv : outcome (csv row)) (self : analyzer)
  : outcome (bool * analyzer) :=
  match read_csv with
  | Return t =>
      let self := mk_analyzer (symbol self)
                              (mk_csv (columns t) (sort_values (rows t)))
                              (printed self) in
      match check_columns required_columns (columns (df self)) with
      | Return _ => Return (true, self)
      | Raise e =>
          Return (false,
                  mk_analyzer (symbol self) (df self)
                              (printed self ++ [error_line (symbol self) e]))
      | OutOfFuel => OutOfFuel
      end
  | Raise e =>
      Return (false,
              mk_analyzer (symbol self) (df self)
                          (printed self ++ [error_line (symbol self) e]))
  | OutOfFuel => OutOfFuel
  end.

End Analyzer.

Arguments mk_analyzer {row} _ _ _.
Arguments symbol {row} _.
Arguments df {row} _.
Arguments printed {row} _.
Arguments load_data {row} _ _ _.

End StockAnalyzer.

(** ** Notions used in the statements *)

(** The news rows aligned to day [d], in row order. *)
Definition events_on (d : Z) (news_df : list scored_row) : list scored_row :=
  filter (fun r => (aligned_date (aligned r) =? d)%Z) news_df.

(** The float64 scores of news rows, in row order. *)
Definition scores (news_df : list scored_row) : list Float.t :=
  map (fun r => Float.of_Q (sentiment r)) news_df.


(** The group of key [k] in a table of groups, the empty group if none. *)
Definition find_group (k : Z) (acc : list (Z * group)) : group :=
  match find (fun kg => (fst kg =? k)%Z) acc with
  | Some kg => snd kg
  | None => []
  end.

Definition keys_sorted (acc : list (Z * group)) : Prop :=
  StronglySorted Z.lt (map fst acc).

(** The count of a group of the table. *)
Definition group_count (kg : Z * group) : nat := List.length (snd kg).

(** A news row that has a date. *)
Definition dated (r : news_row) : Prop := exists d, date r = Day d.

(** ** Properties of the calendar aligner *)

Section Aligner.

Variable trading_days : list Z.

Lemma date_in_spec (d : Z) :
  date_in (Day d) trading_days = true <-> In d trading_days.
Proof.
  unfold date_in. rewrite existsb_exists. split.
  - intros [x [Hx Heq]]. apply Z.eqb_eq in Heq. now subst.
  - intros H. exists d. split; [exact H | apply Z.eqb_refl].
Qed.

Lemma date_in_false (d : Z) :
  date_in (Day d) trading_days = false <-> ~ In d trading_days.
Proof.
  rewrite <- date_in_spec. destruct (date_in (Day d) trading_days); split; congruence.
Qed.

Lemma add_days_next (d : Z) :
  (0 <= d < Date.MAXORDINAL)%Z -> Date.add_days (Day d) 1 = Return (Day (d + 1)).
Proof.
  intros H. unfold Date.add_days. cbv zeta.
  replace (0 <? d + 1)%Z with true by (symmetry; apply Z.ltb_lt; lia).
  replace (d + 1 <=? Date.MAXORDINAL)%Z with true by (symmetry; apply Z.leb_le; lia).
  reflexivity.
Qed.

Lemma add_days_overflow (d : Z) :
  (Date.MAXORDINAL <= d)%Z ->
  Date.add_days (Day d) 1 = Raise (OverflowError "date value out of range").
Proof.
  intros H. unfold Date.add_days. cbv zeta.
  replace (d + 1 <=? Date.MAXORDINAL)%Z with false by (symmetry; apply Z.leb_gt; lia).
  now rewrite andb_false_r.
Qed.

Lemma adjust_loop_hit (fuel : nat) (d : Z) :
  In d trading_days -> adjust_loop (S fuel) trading_days (Day d) = Return d.
Proof.
  intros H. apply date_in_spec in H. cbn [adjust_loop]. now rewrite H.
Qed.

(** On a missing date the loop goes round for ever: [NaT] is in no
    calendar, and a day added to [NaT] is [NaT]. *)
Lemma adjust_loop_NaT (fuel : nat) : adjust_loop fuel trading_days NaT = OutOfFuel.
Proof.
  induction fuel as [|fuel IH]; [reflexivity|]. simpl. exact IH.
Qed.

(** The scan stops at the first trading day it meets. *)
Lemma adjust_loop_finds (m : Z) :
  In m trading_days -> (m <= Date.MAXORDINAL)%Z ->
  forall (fuel : nat) (t : Z),
    (0 <= t <= m)%Z -> (Z.to_nat (m - t) < fuel)%nat ->
    exists d, adjust_loop fuel trading_days (Day t) = Return d
              /\ In d trading_days /\ (t <= d <= m)%Z
              /\ (forall d', In d' trading_days -> (t <= d')%Z -> (d <= d')%Z).
Proof.
  intros Hm Hmax. induction fuel as [|fuel IH]; intros t Ht Hfuel; [lia|].
  cbn [adjust_loop]. destruct (date_in (Day t) trading_days) eqn:Hin; cbn [negb].
  - exists t. apply date_in_spec in Hin. repeat split; try lia; assumption.
  - apply date_in_false in Hin.
    assert (t <> m) by (intros ->; contradiction).
    rewrite add_days_next by lia. cbn [bind].
    destruct (IH (t + 1)%Z) as [d [Hd [Hdin [Hrange Hleast]]]]; [lia | lia |].
    exists d. repeat split; try lia; try assumption.
    intros d' Hd' Hle. apply Hleast; [assumption|].
    assert (d' <> t) by (intros ->; contradiction). lia.
Qed.

(** Past the last trading day the scan goes on until the date overflows. *)
Lemma adjust_loop_overflow :
  forall (fuel : nat) (t : Z),
    (forall m, In m trading_days -> (m < t)%Z) ->
    (0 <= t <= Date.MAXORDINAL)%Z ->
    (Z.to_nat (Date.MAXORDINAL - t) < fuel)%nat ->
    adjust_loop fuel trading_days (Day t)
    = Raise (OverflowError "date value out of range").
Proof.
  induction fuel as [|fuel IH]; intros t Hafter Ht Hfuel; [lia|].
  cbn [adjust_loop]. replace (date_in (Day t) trading_days) with false; cbn [negb].
  - destruct (Z.eq_dec t Date.MAXORDINAL) as [->|Hne].
    + now rewrite add_days_overflow by lia.
    + rewrite add_days_next by lia. cbn [bind]. apply IH; try lia.
      intros m Hm. specialize (Hafter m Hm). lia.
  - symmetry. apply date_in_false. intros Hin. specialize (Hafter t Hin). lia.
Qed.

Lemma adjust_loop_running :
  forall (fuel : nat) (t : Z),
    (forall m, In m trading_days -> (m < t)%Z) ->
    (0 <= t <= Date.MAXORDINAL)%Z ->
    (fuel <= Z.to_nat (Date.MAXORDINAL - t))%nat ->
    adjust_loop fuel trading_days (Day t) = OutOfFuel.
Proof.
  induction fuel as [|fuel IH]; intros t Hafter Ht Hfuel; [reflexivity|].
  cbn [adjust_loop]. replace (date_in (Day t) trading_days) with false; cbn [negb].
  - rewrite add_days_next by lia. cbn [bind]. apply IH; try lia.
    intros m Hm. specialize (Hafter m Hm). lia.
  - symmetry. apply date_in_false. intros Hin. specialize (Hafter t Hin). lia.
Qed.

(** The only exception of a scan past the last trading day. *)
Lemma adjust_raises_overflow_only (t : Z) (class : string) :
  (forall m, In m trading_days -> (m < t)%Z) ->
  (0 <= t <= Date.MAXORDINAL)%Z ->
  class <> "OverflowError"%string ->
  ~ (exists e, adjust_to_trading_day trading_days (Day t) = Raise e
               /\ exn_class e = class).
Proof.
  intros Hafter Ht Hclass [e [He Hc]].
  unfold adjust_to_trading_day, lookahead in He.
  rewrite adjust_loop_overflow in He; [| assumption | assumption | apply Nat.lt_succ_diag_r].
  injection He as <-. simpl in Hc. congruence.
Qed.

(** With the budget of [lookahead] the loop ends on every date. *)
Lemma adjust_loop_ends :
  forall (fuel : nat) (t : Z),
    (Z.to_nat (Date.MAXORDINAL - t) < fuel)%nat ->
    adjust_loop fuel trading_days (Day t) <> OutOfFuel.
Proof.
  induction fuel as [|fuel IH]; intros t Hfuel; [lia|].
  cbn [adjust_loop]. destruct (date_in (Day t) trading_days); cbn [negb];
    [discriminate|].
  unfold Date.add_days. cbv zeta.
  destruct ((0 <? t + 1)%Z && (t + 1 <=? Date.MAXORDINAL)%Z) eqn:Hok; cbn [bind];
    [|discriminate].
  apply andb_true_iff in Hok. destruct Hok as [_ Hle]. apply Z.leb_le in Hle.
  apply IH. lia.
Qed.

Lemma adjust_to_trading_day_ends (t : Z) :
  adjust_to_trading_day trading_days (Day t) <> OutOfFuel.
Proof.
  unfold adjust_to_trading_day, lookahead. apply adjust_loop_ends.
  apply Nat.lt_succ_diag_r.
Qed.

Lemma max_date_ge (m : Z) : In m trading_days -> (m <= max_date trading_days)%Z.
Proof.
  unfold max_date. induction trading_days as [|x r IH]; simpl; [tauto|].
  intros [->|Hin]; [lia|]. specialize (IH Hin). lia.
Qed.

Lemma max_date_in : trading_days <> [] -> Forall Date.valid trading_days ->
  In (max_date trading_days) trading_days.
Proof.
  unfold max_date. induction trading_days as [|x r IH]; [congruence|].
  intros _ Hvalid. inversion Hvalid as [|? ? Hx Hr]; subst. simpl.
  destruct r as [|y r'].
  - left. unfold Date.valid in Hx. simpl. lia.
  - destruct (Z.max_spec x (fold_right Z.max 0%Z (y :: r'))) as [[_ Heq]|[_ Heq]];
      rewrite Heq.
    + right. apply IH; [discriminate | assumption].
    + now left.
Qed.

End Aligner.

(** The calendar of [align_dates] holds exactly the dates of the price
    rows. *)
Lemma unique_from_In (x : Z) (l seen : list Z) :
  In x (unique_from seen l) <-> In x l /\ ~ In x seen.
Proof.
  revert seen. induction l as [|y l IH]; intros seen; simpl; [tauto|].
  destruct (existsb (Z.eqb y) seen) eqn:Hseen.
  - rewrite IH. apply existsb_exists in Hseen.
    destruct Hseen as [z [Hz Heq]]. apply Z.eqb_eq in Heq. subst z.
    split; [tauto|]. intros [[->|Hin] Hnot]; tauto.
  - assert (Hy : ~ In y seen).
    { intros Hin. apply (proj2 (date_in_spec seen y)) in Hin.
      unfold date_in in Hin. congruence. }
    simpl. rewrite IH. simpl. split.
    + intros [->|[Hin Hnot]]; [tauto|]. split; [tauto|]. tauto.
    + intros [[->|Hin] Hnot]; [tauto|].
      destruct (Z.eq_dec y x) as [->|Hne]; [tauto|]. right. tauto.
Qed.

Lemma unique_In (x : Z) (l : list Z) : In x (unique l) <-> In x l.
Proof.
  unfold unique. rewrite unique_from_In. simpl. tauto.
Qed.

(** C1. For a non-empty calendar and a news date not after its latest
    date, the aligner returns the smallest trading day on or after the news
    date; a news date that is a trading day is returned unchanged, and
    aligning the result again returns it (idempotence). *)
Theorem adjust_to_trading_day_smallest (trading_days : list Z) (t : Z) :
  trading_days <> [] ->
  Forall Date.valid trading_days ->
  Date.valid t ->
  (t <= max_date trading_days)%Z ->
  exists d,
    adjust_to_trading_day trading_days (Day t) = Return d
    /\ In d trading_days
    /\ (t <= d)%Z
    /\ (forall d', In d' trading_days -> (t <= d')%Z -> (d <= d')%Z)
    /\ (In t trading_days -> d = t)
    /\ adjust_to_trading_day trading_days (Day d) = Return d.
Proof.
  intros Hne Hvalid Ht Hmax.
  pose proof (max_date_in trading_days Hne Hvalid) as Hin.
  assert (Hm : (max_date trading_days <= Date.MAXORDINAL)%Z).
  { rewrite Forall_forall in Hvalid. apply (Hvalid _ Hin). }
  unfold Date.valid in Ht.
  destruct (adjust_loop_finds trading_days _ Hin Hm (lookahead (Day t)) t)
    as [d [Hd [Hdin [Hrange Hleast]]]].
  - lia.
  - unfold lookahead. lia.
  - exists d. repeat split; try assumption; try lia.
    + intros Htin. specialize (Hleast t Htin). lia.
    + unfold adjust_to_trading_day, lookahead. now apply adjust_loop_hit.
Qed.

Lemma adjust_to_trading_day_smallest_witness :
  exists d,
    adjust_to_trading_day [737581; 737584]%Z (Day 737582) = Return d
    /\ In d [737581; 737584]%Z
    /\ (737582 <= d)%Z
    /\ (forall d', In d' [737581; 737584]%Z -> (737582 <= d')%Z -> (d <= d')%Z)
    /\ (In 737582%Z [737581; 737584]%Z -> d = 737582%Z)
    /\ adjust_to_trading_day [737581; 737584]%Z (Day d) = Return d.
Proof.
  apply adjust_to_trading_day_smallest.
  - discriminate.
  - repeat constructor; discriminate.
  - split; discriminate.
  - discriminate.
Defined.

(** C2 (as the code has it). A news date after the last trading day makes
    the scan test every date up to 9999-12-31 and then fail with the
    [OverflowError] of the date addition: in between the loop is still
    running, whatever the calendar's latest date is. On a news date the
    scan ends; on a missing date ([NaT]) it has not ended after any number
    of iterations. *)
Theorem adjust_to_trading_day_after_last (trading_days : list Z) (t : Z) :
  adjust_to_trading_day trading_days (Day t) <> OutOfFuel
  /\ (Date.valid t ->
      (max_date trading_days < t)%Z ->
      adjust_to_trading_day trading_days (Day t)
        = Raise (OverflowError "date value out of range")
      /\ forall n : nat,
          (n <= Z.to_nat (Date.MAXORDINAL - t))%nat ->
          adjust_loop n trading_days (Day t) = OutOfFuel)
  /\ (forall n : nat, adjust_loop n trading_days NaT = OutOfFuel).
Proof.
  split; [apply adjust_to_trading_day_ends|]. split.
  - intros Ht Hafter. unfold Date.valid in Ht.
    assert (Hall : forall m, In m trading_days -> (m < t)%Z).
    { intros m Hm. pose proof (max_date_ge trading_days m Hm). lia. }
    split.
    + apply adjust_loop_overflow; [assumption | lia | unfold lookahead; lia].
    + intros n Hn. apply adjust_loop_running; [assumption | lia | assumption].
  - intros n. apply adjust_loop_NaT.
Qed.

Lemma adjust_to_trading_day_after_last_witness :
  adjust_to_trading_day [737581]%Z (Day 737582)
    = Raise (OverflowError "date value out of range")
  /\ forall n : nat,
      (n <= Z.to_nat (Date.MAXORDINAL - 737582))%nat ->
      adjust_loop n [737581]%Z (Day 737582) = OutOfFuel.
Proof.
  apply (proj1 (proj2 (adjust_to_trading_day_after_last [737581]%Z 737582%Z))).
  - split; discriminate.
  - reflexivity.
Defined.

(** C2 as stated fails: for the calendar of the single day 737581
    (2020-06-05) and a news date one day later, the error raised is an
    [OverflowError], not an [AlignmentError], and a million tested dates
    after the calendar's end the loop has not stopped. *)
Lemma adjust_to_trading_day_no_alignment_error :
  adjust_loop (Z.to_nat 1000000) [737581]%Z (Day 737582) = OutOfFuel
  /\ ~ (exists e, adjust_to_trading_day [737581]%Z (Day 737582) = Raise e
                  /\ exn_class e = "AlignmentError"%string).
Proof.
  assert (Hafter : forall m, In m [737581]%Z -> (m < 737582)%Z).
  { intros m [<-|[]]. reflexivity. }
  assert (Ht : (0 <= 737582 <= Date.MAXORDINAL)%Z) by (split; discriminate).
  split.
  - apply adjust_loop_running; [exact Hafter | exact Ht |].
    apply Z2Nat.inj_le; unfold Date.MAXORDINAL; lia.
  - apply adjust_raises_overflow_only; [exact Hafter | exact Ht | discriminate].
Qed.

(** ** Properties of the daily aggregation *)

Section Groups.

Lemma agg_insert_keys (k k' : Z) (s : Q) (acc : list (Z * group)) :
  In k' (map fst (agg_insert k s acc)) <-> k' = k \/ In k' (map fst acc).
Proof.
  induction acc as [|[k0 g] rest IH]; simpl.
  - intuition.
  - destruct (Z.ltb_spec k k0); [simpl; intuition|].
    destruct (Z.eqb_spec k k0); simpl; [subst; intuition|].
    rewrite IH. intuition.
Qed.

Lemma agg_insert_sorted (k : Z) (s : Q) (acc : list (Z * group)) :
  keys_sorted acc -> keys_sorted (agg_insert k s acc).
Proof.
  unfold keys_sorted. induction acc as [|[k0 g] rest IH]; simpl; intros Hs.
  - repeat constructor.
  - inversion Hs as [|? ? Hrest Hall]; subst.
    destruct (Z.ltb_spec k k0); [|destruct (Z.eqb_spec k k0)]; simpl.
    + constructor; [assumption|]. constructor; [assumption|].
      rewrite Forall_forall in *. intros x Hx. specialize (Hall x Hx). lia.
    + now constructor.
    + constructor; [now apply IH|].
      rewrite Forall_forall in *. intros x Hx.
      apply agg_insert_keys in Hx. destruct Hx as [->|Hx]; [lia | now apply Hall].
Qed.

Lemma find_group_absent (k : Z) (acc : list (Z * group)) :
  ~ In k (map fst acc) -> find_group k acc = [].
Proof.
  unfold find_group. induction acc as [|[k0 g] rest IH]; simpl; intros Hk.
  - reflexivity.
  - destruct (Z.eqb_spec k0 k); [subst; tauto|]. apply IH. tauto.
Qed.


Lemma find_group_insert (k k' : Z) (s : Q) (acc : list (Z * group)) :
  keys_sorted acc ->
  find_group k' (agg_insert k s acc)
  = if (k =? k')%Z then find_group k' acc ++ [Float.of_Q s]
    else find_group k' acc.
Proof.
  unfold keys_sorted. induction acc as [|[k0 g] rest IH]; simpl; intros Hs.
  - unfold find_group. simpl. destruct (Z.eqb_spec k k'); reflexivity.
  - inversion Hs as [|? ? Hrest Hall]; subst.
    destruct (Z.ltb_spec k k0); [|destruct (Z.eqb_spec k k0)].
    + unfold find_group at 1. simpl.
      destruct (Z.eqb_spec k k'); [|reflexivity].
      subst k'. rewrite find_group_absent; [reflexivity|].
      simpl. intros [->|Hin]; [lia|].
      rewrite Forall_forall in Hall. specialize (Hall _ Hin). lia.
    + subst k0. unfold find_group. simpl.
      destruct (Z.eqb_spec k k'); reflexivity.
    + specialize (IH Hrest). unfold find_group in *. simpl.
      destruct (Z.eqb_spec k0 k'); [|exact IH].
      subst k'. destruct (Z.eqb_spec k k0); [lia | reflexivity].
Qed.

Lemma groupby_snoc (rows : list scored_row) (r : scored_row) :
  groupby (rows ++ [r])
  = agg_insert (aligned_date (aligned r)) (sentiment r) (groupby rows).
Proof.
  unfold groupby. now rewrite fold_left_app.
Qed.

Lemma events_on_snoc (d : Z) (rows : list scored_row) (r : scored_row) :
  events_on d (rows ++ [r])
  = events_on d rows ++ (if (aligned_date (aligned r) =? d)%Z then [r] else []).
Proof.
  unfold events_on. rewrite filter_app. simpl.
  now destruct (aligned_date (aligned r) =? d)%Z.
Qed.

Lemma groupby_sorted (rows : list scored_row) : keys_sorted (groupby rows).
Proof.
  induction rows as [|r rows IH] using rev_ind.
  - constructor.
  - rewrite groupby_snoc. now apply agg_insert_sorted.
Qed.

Lemma groupby_keys (rows : list scored_row) (d : Z) :
  In d (map fst (groupby rows))
  <-> In d (map (fun r => aligned_date (aligned r)) rows).
Proof.
  induction rows as [|r rows IH] using rev_ind.
  - reflexivity.
  - rewrite groupby_snoc, agg_insert_keys, IH, map_app, in_app_iff. simpl.
    intuition.
Qed.

(** The group of a day holds that day's scores, in row order. *)
Lemma groupby_find (rows : list scored_row) (d : Z) :
  find_group d (groupby rows) = scores (events_on d rows).
Proof.
  induction rows as [|r rows IH] using rev_ind.
  - reflexivity.
  - rewrite groupby_snoc, find_group_insert by apply groupby_sorted.
    rewrite events_on_snoc.
    destruct (aligned_date (aligned r) =? d)%Z.
    + unfold scores. rewrite map_app. cbn [map]. now rewrite IH.
    + now rewrite app_nil_r.
Qed.

Lemma groupby_count (rows : list scored_row) (d : Z) :
  List.length (find_group d (groupby rows)) = List.length (events_on d rows).
Proof.
  rewrite groupby_find. unfold scores. now rewrite length_map.
Qed.

End Groups.

Lemma sorted_keys_nodup (l : list Z) : StronglySorted Z.lt l -> NoDup l.
Proof.
  induction 1 as [|x l _ IH Hall]; constructor; [|exact IH].
  intros Hin. rewrite Forall_forall in Hall. specialize (Hall x Hin). lia.
Qed.

(** Two ascending lists with the same elements are the same list. *)
Lemma sorted_same_set (l l' : list Z) :
  StronglySorted Z.lt l -> StronglySorted Z.lt l' ->
  (forall x, In x l <-> In x l') -> l = l'.
Proof.
  intros Hl. revert l'. induction Hl as [|x l Hl IH Hall]; intros l' Hl' Hsame.
  - destruct l' as [|y l']; [reflexivity|].
    exfalso. apply (proj2 (Hsame y)). now left.
  - destruct Hl' as [|y l' Hl' Hall'].
    + exfalso. apply (proj1 (Hsame x)). now left.
    + rewrite Forall_forall in Hall, Hall'.
      assert (Hxy : x = y).
      { destruct (proj1 (Hsame x) (or_introl eq_refl)) as [Heq|Hin]; [congruence|].
        destruct (proj2 (Hsame y) (or_introl eq_refl)) as [Heq|Hin']; [assumption|].
        specialize (Hall _ Hin'). specialize (Hall' _ Hin). lia. }
      subst y. f_equal. apply IH; [exact Hl'|].
      intros z. split; intros Hz.
      * destruct (proj1 (Hsame z) (or_intror Hz)) as [Heq|Hin]; [|exact Hin].
        subst z. specialize (Hall _ Hz). lia.
      * destruct (proj2 (Hsame z) (or_intror Hz)) as [Heq|Hin]; [|exact Hin].
        subst z. specialize (Hall' _ Hz). lia.
Qed.

(** Two tables of groups with ascending keys are told apart by their keys
    and by what is found under each key. *)
Lemma sorted_table_ext {B : Type} (f : group -> B) (l l' : list (Z * group)) :
  keys_sorted l -> keys_sorted l' ->
  (forall k, In k (map fst l) <-> In k (map fst l')) ->
  (forall k, In k (map fst l) -> f (find_group k l) = f (find_group k l')) ->
  map (fun kg => (fst kg, f (snd kg))) l = map (fun kg => (fst kg, f (snd kg))) l'.
Proof.
  intros Hl Hl' Hsame Hfind.
  pose proof (sorted_same_set _ _ Hl Hl' Hsame) as Hkeys.
  clear Hsame Hl'. revert l' Hkeys Hfind.
  unfold keys_sorted in Hl.
  induction l as [|[k g] l IH]; intros l' Hkeys Hfind.
  - destruct l'; [reflexivity | discriminate].
  - destruct l' as [|[k' g'] l']; [discriminate|].
    simpl in Hkeys. injection Hkeys as <- Hkeys.
    inversion Hl as [|? ? Hrest Hall]; subst.
    cbn [map fst snd]. f_equal.
    + f_equal. specialize (Hfind k (or_introl eq_refl)).
      unfold find_group in Hfind. simpl in Hfind.
      now rewrite Z.eqb_refl in Hfind.
    + apply IH; [exact Hrest | exact Hkeys |].
      intros k0 Hk0. specialize (Hfind k0 (or_intror Hk0)).
      rewrite Forall_forall in Hall. specialize (Hall _ Hk0).
      unfold find_group in *. simpl in Hfind.
      destruct (Z.eqb_spec k k0); [lia | exact Hfind].
Qed.

Lemma daily_sentiment_days (mean : aggregation) (news_df : list scored_row) :
  map day (daily_sentiment mean news_df) = map fst (groupby news_df).
Proof.
  unfold daily_sentiment. rewrite map_map. reflexivity.
Qed.

Lemma events_on_length_perm (d : Z) (l l' : list scored_row) :
  Permutation l l' -> List.length (events_on d l) = List.length (events_on d l').
Proof.
  induction 1 as [|x l l' _ IH|x y l|l l' l'' _ IH1 _ IH2]; simpl.
  - reflexivity.
  - destruct (aligned_date (aligned x) =? d)%Z; simpl; now rewrite IH.
  - destruct (aligned_date (aligned x) =? d)%Z, (aligned_date (aligned y) =? d)%Z;
      reflexivity.
  - now rewrite IH1.
Qed.

Lemma groupby_keys_perm (l l' : list scored_row) :
  Permutation l l' ->
  forall k, In k (map fst (groupby l)) <-> In k (map fst (groupby l')).
Proof.
  intros Hperm k. rewrite !groupby_keys.
  assert (Hp : Permutation (map (fun r => aligned_date (aligned r)) l)
                           (map (fun r => aligned_date (aligned r)) l'))
    by (now apply Permutation_map).
  split; apply Permutation_in; [exact Hp | now apply Permutation_sym].
Qed.




(** C8 (as the code has it). Aggregating a permutation of the scored news
    gives the same days with the same counts; and when, for every day, the
    scores of that day come in the same order in both, the two tables of
    daily summaries are the same, means included. How the rows of
    different days are interleaved changes nothing. *)
Theorem daily_sentiment_permutation
        (mean : aggregation) (news_df news_df' : list scored_row) :
  Permutation news_df news_df' ->
  map (fun s => (day s, news_count s)) (daily_sentiment mean news_df)
  = map (fun s => (day s, news_count s)) (daily_sentiment mean news_df')
  /\ ((forall d, scores (events_on d news_df) = scores (events_on d news_df')) ->
      daily_sentiment mean news_df = daily_sentiment mean news_df').
Proof.
  intros Hperm. split.
  - unfold daily_sentiment. rewrite !map_map. cbn [day news_count].
    apply (sorted_table_ext (@List.length Float.t)); try apply groupby_sorted.
    + now apply groupby_keys_perm.
    + intros k _. rewrite !groupby_count. now apply events_on_length_perm.
  - intros Hsame. unfold daily_sentiment.
    assert (H : map (fun kg => (fst kg, snd kg)) (groupby news_df)
                = map (fun kg => (fst kg, snd kg)) (groupby news_df')).
    { apply (sorted_table_ext (fun g => g)); try apply groupby_sorted.
      - now apply groupby_keys_perm.
      - intros k _. rewrite !groupby_find. apply Hsame. }
    apply (f_equal (map (fun x : Z * group =>
                           mk_sentiment (fst x) (mean (snd x)) (List.length (snd x)))))
      in H.
    rewrite !map_map in H. exact H.
Qed.

Lemma daily_sentiment_permutation_witness :
  let r1 := mk_scored (mk_aligned (mk_news (Day 737583) "a" "p") 737584) (1 # 2) in
  let r2 := mk_scored (mk_aligned (mk_news (Day 737581) "b" "q") 737581) (1 # 4) in
  map (fun s => (day s, news_count s)) (daily_sentiment group_mean [r1; r2])
  = map (fun s => (day s, news_count s)) (daily_sentiment group_mean [r2; r1])
  /\ daily_sentiment group_mean [r1; r2] = daily_sentiment group_mean [r2; r1].
Proof.
  intros r1 r2.
  destruct (daily_sentiment_permutation group_mean [r1; r2] [r2; r1]
              (perm_swap r2 r1 []))
    as [Hcount Htable].
  split; [exact Hcount|]. apply Htable.
  intros d. unfold events_on, r1, r2. cbn [filter aligned aligned_date].
  destruct (737584 =? d)%Z eqn:H1, (737581 =? d)%Z eqn:H2; try reflexivity.
  apply Z.eqb_eq in H1, H2. exfalso. rewrite <- H1 in H2. discriminate H2.
Defined.

(** C8 as stated fails: the same three events of one day, with the scores
    that the float64 written 0.2, 0.2 and -1.0 hold, in two orders. The
    mean is -0.19999999999999998 when the negative score comes last and
    -0.20000000000000004 when it comes second, with the compensated
    summation of pandas and with plain summation alike. *)
Lemma daily_sentiment_order_matters :
  let score := 3602879701896397 # 18014398509481984 in
  let r := fun h s => mk_scored (mk_aligned (mk_news (Day 737584) h "p") 737584) s in
  let news_df := [r "a" score; r "b" score; r "c" (- (1))]%string in
  let news_df' := [r "a" score; r "c" (- (1)); r "b" score]%string in
  Permutation news_df news_df'
  /\ daily_sentiment group_mean news_df
     = [mk_sentiment 737584 (S754_finite true 7205759403792793 (-55)) 3]
  /\ daily_sentiment group_mean news_df'
     = [mk_sentiment 737584 (S754_finite true 7205759403792795 (-55)) 3]
  /\ daily_sentiment plain_mean news_df = daily_sentiment group_mean news_df
  /\ daily_sentiment plain_mean news_df' = daily_sentiment group_mean news_df'
  /\ daily_sentiment group_mean news_df <> daily_sentiment group_mean news_df'.
Proof.
  intros score r news_df news_df'.
  assert (H1 : daily_sentiment group_mean news_df
     = [mk_sentiment 737584 (S754_finite true 7205759403792793 (-55)) 3])
    by (vm_compute; reflexivity).
  assert (H2 : daily_sentiment group_mean news_df'
     = [mk_sentiment 737584 (S754_finite true 7205759403792795 (-55)) 3])
    by (vm_compute; reflexivity).
  split; [apply perm_skip, perm_swap|].
  split; [exact H1|]. split; [exact H2|].
  split; [vm_compute; reflexivity|]. split; [vm_compute; reflexivity|].
  rewrite H1, H2. discriminate.
Qed.

Section GroupTotals.

Lemma agg_insert_count (k : Z) (s : Q) (acc : list (Z * group)) :
  list_sum (map group_count (agg_insert k s acc))
  = S (list_sum (map group_count acc)).
Proof.
  induction acc as [|[k0 g] rest IH]; simpl; [reflexivity|].
  destruct (k <? k0)%Z; [reflexivity|].
  destruct (k =? k0)%Z; simpl.
  - unfold group_count. cbn [snd]. rewrite length_app. simpl. lia.
  - rewrite IH. unfold group_count. simpl. lia.
Qed.

Lemma groupby_counts (news_df : list scored_row) :
  list_sum (map group_count (groupby news_df)) = List.length news_df.
Proof.
  induction news_df as [|r rows IH] using rev_ind; [reflexivity|].
  rewrite groupby_snoc, agg_insert_count, IH, length_app. simpl. lia.
Qed.

End GroupTotals.

(** ** Properties of the float64 operations *)

Section Floats.

Lemma shr_1_nonneg (mrs : shr_record) :
  (0 <= shr_m mrs)%Z -> (0 <= shr_m (shr_1 mrs))%Z.
Proof.
  destruct mrs as [m r s]. simpl. intros Hm.
  destruct m as [|[p|p|]|p]; simpl; lia.
Qed.

Lemma iter_shr_1_nonneg (p : positive) :
  forall mrs, (0 <= shr_m mrs)%Z -> (0 <= shr_m (iter_pos shr_1 p mrs))%Z.
Proof.
  induction p as [p IH|p IH|]; intros mrs Hm; simpl.
  - apply IH, IH. now apply shr_1_nonneg.
  - now apply IH, IH.
  - now apply shr_1_nonneg.
Qed.

Lemma shr_fexp_nonneg (m e : Z) (l : location) :
  (0 <= m)%Z -> (0 <= shr_m (fst (shr_fexp Float.prec Float.emax m e l)))%Z.
Proof.
  intros Hm. unfold shr_fexp, shr.
  assert (H0 : (0 <= shr_m (shr_record_of_loc m l))%Z)
    by (destruct l as [|[| |]]; exact Hm).
  destruct (fexp Float.prec Float.emax (Zdigits2 m + e) - e)%Z; simpl; try exact H0.
  now apply iter_shr_1_nonneg.
Qed.

Lemma round_nearest_even_nonneg (m : Z) (l : location) :
  (0 <= m)%Z -> (0 <= round_nearest_even m l)%Z.
Proof.
  intros Hm. destruct l as [|[| |]]; simpl; try lia.
  destruct (Z.even m); lia.
Qed.

(** Rounding a number that is not negative never gives NaN. *)
Lemma binary_round_aux_not_nan (sx : bool) (mx ex : Z) (lx : location) :
  (0 <= mx)%Z ->
  Float.isnan (binary_round_aux Float.prec Float.emax sx mx ex lx) = false.
Proof.
  intros Hm. unfold binary_round_aux.
  pose proof (shr_fexp_nonneg mx ex lx Hm) as H1.
  destruct (shr_fexp Float.prec Float.emax mx ex lx) as [mrs' e'].
  cbn [fst] in H1.
  pose proof (shr_fexp_nonneg _ e' loc_Exact
                (round_nearest_even_nonneg _ (loc_of_shr_record mrs') H1)) as H2.
  destruct (shr_fexp Float.prec Float.emax
              (round_nearest_even (shr_m mrs') (loc_of_shr_record mrs')) e' loc_Exact)
    as [mrs'' e''].
  cbn [fst] in H2.
  destruct (shr_m mrs'') as [|m|m]; [reflexivity | | lia].
  destruct (e'' <=? Float.emax - Float.prec)%Z; reflexivity.
Qed.

(** The quotient of two finite numbers is not NaN. *)
Lemma div_finite_not_nan (sx sy : bool) (mx my : positive) (ex ey : Z) :
  Float.isnan (Float.div (S754_finite sx mx ex) (S754_finite sy my ey)) = false.
Proof.
  unfold Float.div, SFdiv, SFdiv_core_binary. cbv zeta.
  set (s := (ex - ey - _)%Z).
  set (m' := match s with Z0 => Zpos mx | Zpos _ => Z.shiftl (Zpos mx) s | Zneg _ => 0%Z end).
  assert (Hm' : (0 <= m')%Z).
  { unfold m'. destruct s; try lia. apply Z.shiftl_nonneg. lia. }
  pose proof (Z_div_mod m' (Zpos my) eq_refl) as Hdiv.
  destruct (Z.div_eucl m' (Zpos my)) as [q r].
  apply binary_round_aux_not_nan. nia.
Qed.

Lemma of_Q_not_nan (q : Q) : Float.isnan (Float.of_Q q) = false.
Proof.
  unfold Float.of_Q. destruct (Qnum q); [reflexivity| |]; apply div_finite_not_nan.
Qed.

(** Division by a zero of either sign: NaN for a zero, and otherwise the
    infinity whose sign is the product of the two signs. It stays that
    infinity when 1 is subtracted and the result multiplied by 100. *)
Lemma return_after_zero (v : Float.t) (s : bool) :
  Float.mul (Float.sub (Float.div v (S754_zero s)) Float.one) Float.hundred
  = if Float.isnan v || Float.iszero v then Float.NaN
    else S754_infinity (xorb (Float.signbit v) s).
Proof.
  destruct v as [sv|sv| |sv m e]; destruct s; try destruct sv; reflexivity.
Qed.

(** The return of the first row: anything divided by NaN. *)
Lemma return_after_nan (v : Float.t) :
  Float.mul (Float.sub (Float.div v Float.NaN) Float.one) Float.hundred = Float.NaN.
Proof.
  now destruct v.
Qed.









Lemma compare_cont_eq (m1 m2 : positive) :
  Pos.compare_cont Eq m1 m2 = Eq -> m1 = m2.
Proof.
  apply Pos.compare_eq.
Qed.

Lemma float_eqb_finite (s1 s2 : bool) (m1 m2 : positive) (e1 e2 : Z) :
  Float.eqb (S754_finite s1 m1 e1) (S754_finite s2 m2 e2) = true ->
  s1 = s2 /\ m1 = m2 /\ e1 = e2.
Proof.
  unfold Float.eqb, SFeqb, SFcompare.
  destruct s1, s2; try discriminate;
    destruct (Z.compare e1 e2) eqn:He; try discriminate;
    apply Z.compare_eq in He;
    destruct (Pos.compare_cont Eq m1 m2) eqn:Hm; try discriminate;
    apply compare_cont_eq in Hm; intros _; auto.
Qed.

Lemma float_eqb_finite_refl (s : bool) (m : positive) (e : Z) :
  Float.eqb (S754_finite s m e) (S754_finite s m e) = true.
Proof.
  unfold Float.eqb, SFeqb, SFcompare.
  rewrite Z.compare_refl.
  change (Pos.compare_cont Eq m m) with (Pos.compare m m).
  rewrite Pos.compare_refl. now destruct s.
Qed.

Lemma float_eqb_trans (a b v : Float.t) :
  Float.eqb a v = true -> Float.eqb b v = true -> Float.eqb b a = true.
Proof.
  destruct a as [sa|sa| |sa ma ea], b as [sb|sb| |sb mb eb], v as [sv|sv| |sv mv ev];
    try (intros Ha Hb; apply float_eqb_finite in Ha, Hb;
         destruct Ha as [-> [-> ->]], Hb as [-> [-> ->]];
         apply float_eqb_finite_refl);
    try (destruct sa); try (destruct sb); try (destruct sv);
    try discriminate; try reflexivity;
    try (unfold Float.eqb, SFeqb, SFcompare; discriminate).
Qed.

End Floats.

(** ** Properties of the return calculation *)

Section Returns.

Lemma combine_firstn_length {A B : Type} (l : list A) (l' : list B) :
  combine l (firstn (List.length l) l') = combine l l'.
Proof.
  revert l'. induction l as [|a l IH]; intros [|b l']; simpl; try reflexivity.
  now rewrite IH.
Qed.

(** Row [i + 1] of a column next to its shifted copy holds the values of
    rows [i + 1] and [i]. *)
Lemma combine_shift_nth {A : Type} (l : list A) :
  forall (x : A) (i : nat) (a b : A),
    nth_error l i = Some a -> nth_error l (S i) = Some b ->
    nth_error (combine l (x :: l)) (S i) = Some (b, a).
Proof.
  induction l as [|c l IH]; intros x i a b Ha Hb; [destruct i; discriminate|].
  simpl. destruct i as [|i]; simpl in *.
  - injection Ha as ->. destruct l as [|b' l]; [discriminate|].
    injection Hb as ->. reflexivity.
  - now apply IH.
Qed.

Lemma pct_change_length (l : list Float.t) :
  List.length (pct_change l) = List.length l.
Proof.
  unfold pct_change, shift1.
  rewrite length_map, combine_firstn_length, length_combine. simpl. lia.
Qed.

Lemma pct_change_first (c : Float.t) (l : list Float.t) :
  nth_error (pct_change (c :: l)) 0 = Some Float.NaN.
Proof.
  unfold pct_change, shift1. simpl. now destruct c.
Qed.

Lemma pct_change_next (l : list Float.t) (i : nat) (p c : Float.t) :
  nth_error l i = Some p -> nth_error l (S i) = Some c ->
  nth_error (pct_change l) (S i)
  = Some (Float.sub (Float.div c p) Float.one).
Proof.
  intros Hp Hc. unfold pct_change, shift1.
  rewrite combine_firstn_length, nth_error_map.
  now rewrite (combine_shift_nth l Float.NaN i p c Hp Hc).
Qed.

Variable stock_df : list price_row.

Lemma daily_returns_length :
  List.length (daily_returns stock_df) = List.length stock_df.
Proof.
  unfold daily_returns. now rewrite length_map, pct_change_length, length_map.
Qed.

Lemma daily_returns_first (b : price_row) :
  nth_error stock_df 0 = Some b ->
  nth_error (daily_returns stock_df) 0 = Some Float.NaN.
Proof.
  destruct stock_df as [|b' l]; [discriminate|]. intros _.
  unfold daily_returns. rewrite nth_error_map. cbn [map].
  now rewrite pct_change_first.
Qed.

Lemma daily_returns_next (i : nat) (p c : price_row) :
  nth_error stock_df i = Some p -> nth_error stock_df (S i) = Some c ->
  nth_error (daily_returns stock_df) (S i)
  = Some (Float.mul (Float.sub (Float.div (Float.of_Q (Close c))
                                          (Float.of_Q (Close p)))
                               Float.one)
                    Float.hundred).
Proof.
  intros Hp Hc. unfold daily_returns. rewrite nth_error_map.
  rewrite (pct_change_next _ i (Float.of_Q (Close p)) (Float.of_Q (Close c))).
  - reflexivity.
  - now rewrite nth_error_map, Hp.
  - now rewrite nth_error_map, Hc.
Qed.

Lemma with_returns_bars : map bar (with_returns stock_df) = stock_df.
Proof.
  unfold with_returns. rewrite map_map. cbn [bar].
  pose proof daily_returns_length as Hlen.
  revert Hlen. generalize (daily_returns stock_df).
  induction stock_df as [|b l IH]; intros [|r rs] Hlen; try discriminate; simpl.
  - reflexivity.
  - f_equal. apply IH. simpl in Hlen. lia.
Qed.

Lemma with_returns_returns :
  map daily_return (with_returns stock_df) = daily_returns stock_df.
Proof.
  unfold with_returns. rewrite map_map. cbn [daily_return].
  pose proof daily_returns_length as Hlen.
  revert Hlen. generalize (daily_returns stock_df).
  induction stock_df as [|b l IH]; intros [|r rs] Hlen; try discriminate; simpl.
  - reflexivity.
  - f_equal. apply IH. simpl in Hlen. lia.
Qed.

Lemma with_returns_dates :
  map date_only (with_returns stock_df) = map Date stock_df.
Proof.
  rewrite <- with_returns_bars at 2. rewrite map_map.
  unfold with_returns. rewrite !map_map. reflexivity.
Qed.

Lemma with_returns_nth (i : nat) (b : price_row) (r : Float.t) :
  nth_error stock_df i = Some b ->
  nth_error (daily_returns stock_df) i = Some r ->
  nth_error (with_returns stock_df) i = Some (mk_return b r (Date b)).
Proof.
  intros Hb Hr. unfold with_returns. rewrite nth_error_map.
  assert (H : nth_error (combine stock_df (daily_returns stock_df)) i = Some (b, r)).
  { revert i Hb Hr. generalize (daily_returns stock_df).
    induction stock_df as [|b' l IH]; intros rs i Hb Hr; [destruct i; discriminate|].
    destruct rs as [|r' rs]; [destruct i; discriminate|].
    destruct i as [|i]; simpl in *.
    - congruence.
    - now apply IH. }
  now rewrite H.
Qed.

End Returns.

(** ** Properties of the join *)

Section Joiner.

Lemma in_merge (l : list sentiment_row) (r : list return_row) (m : merged_row) :
  In m (merge l r)
  <-> In (lhs m) l /\ In (rhs m) r /\ date_only (rhs m) = day (lhs m).
Proof.
  unfold merge. rewrite in_flat_map. split.
  - intros [s [Hs Hm]]. apply in_map_iff in Hm. destruct Hm as [x [<- Hx]].
    apply filter_In in Hx. destruct Hx as [Hx Hkey]. apply Z.eqb_eq in Hkey.
    simpl. tauto.
  - intros [Hl [Hr Hkey]]. exists (lhs m). split; [exact Hl|].
    apply in_map_iff. exists (rhs m). split; [now destruct m|].
    apply filter_In. split; [exact Hr | now apply Z.eqb_eq].
Qed.

Lemma filter_map_swap {A B : Type} (f : A -> B) (p : B -> bool) (l : list A) :
  filter p (map f l) = map f (filter (fun x => p (f x)) l).
Proof.
  induction l as [|a l IH]; simpl; [reflexivity|].
  destruct (p (f a)); simpl; now rewrite IH.
Qed.

Lemma filter_filter_swap {A : Type} (p q : A -> bool) (l : list A) :
  filter p (filter q l) = filter q (filter p l).
Proof.
  induction l as [|a l IH]; simpl; [reflexivity|].
  destruct (p a) eqn:Hp, (q a) eqn:Hq; simpl; rewrite ?Hp, ?Hq, IH; reflexivity.
Qed.

(** Dropping the rows without a return after the join is joining with
    the price rows that have one. *)
Lemma dropna_merge (l : list sentiment_row) (r : list return_row) :
  dropna (merge l r) = merge l (filter defined_return r).
Proof.
  unfold dropna, merge. induction l as [|s l IH]; simpl; [reflexivity|].
  rewrite filter_app, IH. f_equal.
  rewrite filter_map_swap. simpl. f_equal. apply filter_filter_swap.
Qed.

Lemma in_calculate_daily_metrics (mean : aggregation)
      (news_df : list scored_row) (stock_df : list price_row) (m : merged_row) :
  In m (calculate_daily_metrics mean news_df stock_df)
  <-> In (lhs m) (daily_sentiment mean news_df)
      /\ In (rhs m) (with_returns stock_df)
      /\ date_only (rhs m) = day (lhs m)
      /\ Float.isnan (daily_return (rhs m)) = false.
Proof.
  unfold calculate_daily_metrics. rewrite dropna_merge, in_merge, filter_In.
  unfold defined_return. rewrite negb_true_iff. tauto.
Qed.

Lemma filter_key_absent {A : Type} (f : A -> Z) (k : Z) (l : list A) :
  ~ In k (map f l) -> filter (fun x => (f x =? k)%Z) l = [].
Proof.
  induction l as [|a l IH]; simpl; intros Hk; [reflexivity|].
  destruct (Z.eqb_spec (f a) k); [tauto|]. apply IH. tauto.
Qed.

Lemma count_key_le_1 {A : Type} (f : A -> Z) (k : Z) (l : list A) :
  NoDup (map f l) ->
  (List.length (filter (fun x => (f x =? k)%Z) l) <= 1)%nat.
Proof.
  induction l as [|a l IH]; simpl; intros Hnd; [lia|].
  inversion Hnd as [|? ? Hnotin Hnd']; subst.
  destruct (Z.eqb_spec (f a) k) as [Heq|Hne]; [|now apply IH].
  simpl. rewrite filter_key_absent; [simpl; lia|]. now rewrite <- Heq.
Qed.

Lemma merge_length_left (l : list sentiment_row) (r : list return_row) :
  NoDup (map date_only r) -> (List.length (merge l r) <= List.length l)%nat.
Proof.
  intros Hnd. unfold merge. induction l as [|s l IH]; simpl; [lia|].
  rewrite length_app, length_map.
  pose proof (count_key_le_1 date_only (day s) r Hnd). lia.
Qed.

Lemma merge_cons_right_length (l : list sentiment_row) (x : return_row)
      (r : list return_row) :
  List.length (merge l (x :: r))
  = (List.length (filter (fun s => (day s =? date_only x)%Z) l)
     + List.length (merge l r))%nat.
Proof.
  unfold merge. induction l as [|s l IH]; [reflexivity|].
  cbn [flat_map]. rewrite !length_app, IH, !length_map. cbn [filter].
  rewrite (Z.eqb_sym (day s)).
  destruct (date_only x =? day s)%Z; simpl; lia.
Qed.

Lemma merge_length_right (l : list sentiment_row) (r : list return_row) :
  NoDup (map day l) -> (List.length (merge l r) <= List.length r)%nat.
Proof.
  intros Hnd. induction r as [|x r IH].
  - unfold merge. induction l as [|s l IHl]; simpl; [lia|].
    inversion Hnd; subst. now apply IHl.
  - rewrite merge_cons_right_length. simpl.
    pose proof (count_key_le_1 day (date_only x) l Hnd). lia.
Qed.

Lemma nodup_map_filter {A : Type} (f : A -> Z) (p : A -> bool) (l : list A) :
  NoDup (map f l) -> NoDup (map f (filter p l)).
Proof.
  induction l as [|a l IH]; simpl; intros Hnd; [constructor|].
  inversion Hnd as [|? ? Hnotin Hnd']; subst.
  destruct (p a); simpl; [|now apply IH].
  constructor; [|now apply IH].
  intros Hin. apply Hnotin. apply in_map_iff in Hin.
  destruct Hin as [x [Hfx Hx]]. apply filter_In in Hx.
  rewrite <- Hfx. apply in_map. tauto.
Qed.

Lemma sorted_block (c : Z) (l1 l2 : list Z) :
  Forall (eq c) l1 -> Forall (Z.lt c) l2 -> StronglySorted Z.le l2 ->
  StronglySorted Z.le (l1 ++ l2).
Proof.
  intros H1 H2 Hs. induction l1 as [|x l1 IH]; simpl; [exact Hs|].
  inversion H1 as [|? ? Hx H1']; subst.
  constructor; [now apply IH|].
  apply Forall_app. split.
  - apply (Forall_impl _ (P := eq x)); [|exact H1']. intros y <-. lia.
  - apply (Forall_impl _ (P := Z.lt x)); [|exact H2]. intros y Hy. lia.
Qed.

End Joiner.

Lemma merge_sorted (l : list sentiment_row) (r : list return_row) :
  StronglySorted Z.lt (map day l) ->
  StronglySorted Z.le (map (fun m => date_only (rhs m)) (merge l r)).
Proof.
  induction l as [|s l IH]; simpl; intros Hs; [constructor|].
  inversion Hs as [|? ? Hrest Hall]; subst.
  change (flat_map _ l) with (merge l r).
  rewrite map_app. apply sorted_block with (c := day s).
  - rewrite map_map. simpl. apply Forall_forall. intros d Hd.
    apply in_map_iff in Hd. destruct Hd as [x [<- Hx]].
    apply filter_In in Hx. destruct Hx as [_ Hkey]. apply Z.eqb_eq in Hkey.
    now symmetry.
  - apply Forall_forall. intros d Hd.
    apply in_map_iff in Hd. destruct Hd as [m [<- Hm]].
    apply in_merge in Hm. destruct Hm as [Hl [_ ->]].
    rewrite Forall_forall in Hall. apply Hall. now apply in_map.
  - now apply IH.
Qed.

(** C6 (as the code has it). The joined table holds exactly the days that
    have both a sentiment summary and a price row with a defined return; no
    row of it has an unset return; its rows are in ascending order of the
    day; it has at most as many rows as there are price rows with a
    defined return, and, when no two price rows share a date, at most as
    many rows as there are summaries. *)
Theorem calculate_daily_metrics_join (mean : aggregation)
        (news_df : list scored_row) (stock_df : list price_row) :
  let merged_df := calculate_daily_metrics mean news_df stock_df in
  let summaries := daily_sentiment mean news_df in
  let valid_returns := filter defined_return (with_returns stock_df) in
  (forall d, In d (map (fun m => date_only (rhs m)) merged_df)
             <-> In d (map day summaries) /\ In d (map date_only valid_returns))
  /\ (forall m, In m merged_df ->
        Float.isnan (daily_return (rhs m)) = false
        /\ day (lhs m) = date_only (rhs m))
  /\ StronglySorted Z.le (map (fun m => date_only (rhs m)) merged_df)
  /\ (List.length merged_df <= List.length valid_returns)%nat
  /\ (NoDup (map Date stock_df) ->
      (List.length merged_df
       <= Nat.min (List.length summaries) (List.length valid_returns))%nat).
Proof.
  intros merged_df summaries valid_returns.
  assert (Hmerged : merged_df = merge summaries valid_returns).
  { unfold merged_df, calculate_daily_metrics. apply dropna_merge. }
  assert (Hsorted : StronglySorted Z.lt (map day summaries)).
  { unfold summaries. rewrite daily_sentiment_days. apply groupby_sorted. }
  assert (Hright : (List.length merged_df <= List.length valid_returns)%nat).
  { rewrite Hmerged. apply merge_length_right. now apply sorted_keys_nodup. }
  split; [|split; [|split; [|split]]].
  - intros d. split.
    + intros H. apply in_map_iff in H. destruct H as [m [<- Hm]].
      rewrite Hmerged in Hm. apply in_merge in Hm.
      destruct Hm as [Hl [Hr Heq]]. split.
      * rewrite Heq. now apply in_map.
      * now apply in_map.
    + intros [Hl Hr]. apply in_map_iff in Hl. destruct Hl as [s [Hs Hsin]].
      apply in_map_iff in Hr. destruct Hr as [x [Hx Hxin]].
      apply in_map_iff. exists (mk_merged s x). split; [exact Hx|].
      rewrite Hmerged. apply in_merge. simpl. repeat split; congruence.
  - intros m H. apply in_calculate_daily_metrics in H.
    split; [tauto | symmetry; tauto].
  - rewrite Hmerged. now apply merge_sorted.
  - exact Hright.
  - intros Hnd. apply Nat.min_glb; [|exact Hright].
    rewrite Hmerged. apply merge_length_left.
    unfold valid_returns. apply nodup_map_filter.
    now rewrite with_returns_dates.
Qed.

Lemma calculate_daily_metrics_join_witness :
  let news_df :=
    [mk_scored (mk_aligned (mk_news (Day 737583) "a" "p") 737584) (1 # 2)] in
  let stock_df := [mk_price 737581 100; mk_price 737584 110] in
  (List.length (calculate_daily_metrics group_mean news_df stock_df)
   <= Nat.min (List.length (daily_sentiment group_mean news_df))
              (List.length (filter defined_return (with_returns stock_df))))%nat.
Proof.
  intros news_df stock_df.
  apply (calculate_daily_metrics_join group_mean news_df stock_df).
  repeat constructor; simpl; intuition discriminate.
Defined.

(** C6 as stated fails on a price table with a repeated date: one summary
    joined with the two bars of its day gives two rows. *)
Lemma calculate_daily_metrics_more_rows_than_summaries :
  let news_df :=
    [mk_scored (mk_aligned (mk_news (Day 737583) "a" "p") 737584) (1 # 2)] in
  let stock_df :=
    [mk_price 737581 100; mk_price 737584 110; mk_price 737584 121] in
  List.length (calculate_daily_metrics group_mean news_df stock_df) = 2%nat
  /\ List.length (daily_sentiment group_mean news_df) = 1%nat
  /\ ~ (List.length (calculate_daily_metrics group_mean news_df stock_df)
        <= Nat.min (List.length (daily_sentiment group_mean news_df))
                   (List.length (filter defined_return (with_returns stock_df))))%nat.
Proof.
  vm_compute. repeat split. lia.
Qed.

(** The return of a row after the first, from the two floats. *)
Lemma scaled_pct_change_next (l : list Float.t) (i : nat) (p c : Float.t) :
  nth_error l i = Some p -> nth_error l (S i) = Some c ->
  nth_error (map (fun r => Float.mul r Float.hundred) (pct_change l)) (S i)
  = Some (Float.mul (Float.sub (Float.div c p) Float.one) Float.hundred).
Proof.
  intros Hp Hc. rewrite nth_error_map.
  now rewrite (pct_change_next l i p c Hp Hc).
Qed.

(** C5 (as the code has it). The return calculator emits one row per price
    bar; the return of the first bar is unset ([NaN]); for every later bar
    it is [(close[i] / close[i-1] - 1) * 100] in float64 arithmetic, the
    quotient, the difference and the product each rounded; for the closes
    100, 110, 99 the returns are unset, 10.000000000000009 and
    -9.999999999999998. *)
Theorem daily_returns_formula (stock_df : list price_row) :
  map bar (with_returns stock_df) = stock_df
  /\ (forall b, nth_error stock_df 0 = Some b ->
        nth_error (map daily_return (with_returns stock_df)) 0 = Some Float.NaN)
  /\ (forall i p c,
        nth_error stock_df i = Some p ->
        nth_error stock_df (S i) = Some c ->
        nth_error (map daily_return (with_returns stock_df)) (S i)
        = Some (Float.mul
                  (Float.sub (Float.div (Float.of_Q (Close c)) (Float.of_Q (Close p)))
                             Float.one)
                  Float.hundred))
  /\ map daily_return
         (with_returns
            [mk_price 737581 100; mk_price 737584 110; mk_price 737585 99])
     = [Float.NaN;
        S754_finite false 5629499534213125 (-49);
        S754_finite true 5629499534213119 (-49)].
Proof.
  rewrite with_returns_returns. split; [|split; [|split]].
  - apply with_returns_bars.
  - apply daily_returns_first.
  - intros i p c Hp Hc. apply (daily_returns_next stock_df i p c Hp Hc).
  - vm_compute. reflexivity.
Qed.

Lemma daily_returns_formula_witness :
  let stock_df := [mk_price 737581 100; mk_price 737584 110; mk_price 737585 99] in
  nth_error (map daily_return (with_returns stock_df)) 1
  = Some (Float.mul (Float.sub (Float.div (Float.of_Q 110) (Float.of_Q 100)) Float.one)
                    Float.hundred).
Proof.
  intros stock_df.
  apply (proj1 (proj2 (proj2 (daily_returns_formula stock_df)))
               0%nat (mk_price 737581 100) (mk_price 737584 110)).
  - reflexivity.
  - reflexivity.
Defined.

(** C5 as stated fails: for the closes 100, 110, 99 the returns computed
    are 10.000000000000009 and -9.999999999999998, not 10 and -10. The
    formula [(close[i] - close[i-1]) / close[i-1] * 100], evaluated in
    float64 on the same closes, does give 10 and -10: the code divides
    first and subtracts 1, and rounds differently. *)
Lemma daily_returns_rounded :
  let stock_df := [mk_price 737581 100; mk_price 737584 110; mk_price 737585 99] in
  let formula := fun c p : Q =>
    Float.mul (Float.div (Float.sub (Float.of_Q c) (Float.of_Q p)) (Float.of_Q p))
              Float.hundred in
  map daily_return (with_returns stock_df)
  = [Float.NaN;
     S754_finite false 5629499534213125 (-49);
     S754_finite true 5629499534213119 (-49)]
  /\ Float.of_Z 10 = S754_finite false 5629499534213120 (-49)
  /\ Float.of_Z (-10) = S754_finite true 5629499534213120 (-49)
  /\ formula 110 100 = Float.of_Z 10
  /\ formula 99 110 = Float.of_Z (-10)
  /\ (forall r, nth_error (map daily_return (with_returns stock_df)) 1 = Some r ->
        Float.eqb r (Float.of_Z 10) = false)
  /\ (forall r, nth_error (map daily_return (with_returns stock_df)) 2 = Some r ->
        Float.eqb r (Float.of_Z (-10)) = false).
Proof.
  intros stock_df formula.
  assert (Heq : map daily_return (with_returns stock_df)
     = [Float.NaN;
        S754_finite false 5629499534213125 (-49);
        S754_finite true 5629499534213119 (-49)]) by (vm_compute; reflexivity).
  split; [exact Heq|]. rewrite Heq.
  split; [vm_compute; reflexivity|]. split; [vm_compute; reflexivity|].
  split; [vm_compute; reflexivity|]. split; [vm_compute; reflexivity|].
  split; intros r Hr; injection Hr as <-; vm_compute; reflexivity.
Qed.

(** C3 (as the code has it). When the previous close is zero nothing is
    raised or flagged: the return of the bar is [NaN] if its own close is
    zero too, and then no joined row carries it; otherwise it is infinite,
    and the bar is joined, with that infinite return, to the summary of
    its day if there is one. In the column of returns, a value after a
    zero of either sign (0.0 or -0.0) gets the infinity whose sign is the
    product of the signs of the value and of the zero. *)
Theorem daily_returns_zero_close (mean : aggregation)
        (news_df : list scored_row) (stock_df : list price_row)
        (i : nat) (p c : price_row) :
  (forall (l : list Float.t) (z : bool) (v : Float.t),
      nth_error l i = Some (S754_zero z) ->
      nth_error l (S i) = Some v ->
      nth_error (map (fun r => Float.mul r Float.hundred) (pct_change l)) (S i)
      = Some (if Float.isnan v || Float.iszero v then Float.NaN
              else S754_infinity (xorb (Float.signbit v) z)))
  /\ (nth_error stock_df i = Some p ->
      nth_error stock_df (S i) = Some c ->
      Float.iszero (Float.of_Q (Close p)) = true ->
      exists x,
        let r := mk_return c x (Date c) in
        nth_error (with_returns stock_df) (S i) = Some r
        /\ (Float.iszero (Float.of_Q (Close c)) = true ->
            x = Float.NaN
            /\ forall m, In m (calculate_daily_metrics mean news_df stock_df) -> rhs m <> r)
        /\ (Float.iszero (Float.of_Q (Close c)) = false ->
            Float.isinf x = true
            /\ forall s, In s (daily_sentiment mean news_df) -> day s = Date c ->
                 In (mk_merged s r) (calculate_daily_metrics mean news_df stock_df))).
Proof.
  split.
  - intros l z v Hz Hv.
    rewrite (scaled_pct_change_next l i _ _ Hz Hv). f_equal.
    apply return_after_zero.
  - intros Hp Hc Hzero.
    destruct (Float.of_Q (Close p)) as [z| | |] eqn:Hfp; try discriminate.
    pose proof (daily_returns_next stock_df i p c Hp Hc) as Hret.
    rewrite Hfp, return_after_zero in Hret.
    rewrite of_Q_not_nan in Hret. cbn [orb] in Hret.
    eexists. cbv zeta. split; [apply with_returns_nth; [exact Hc | exact Hret]|].
    split.
    + intros Hc0. rewrite Hc0. split; [reflexivity|].
      intros m Hm Heq. apply in_calculate_daily_metrics in Hm.
      destruct Hm as [_ [_ [_ Hdef]]]. rewrite Heq in Hdef. discriminate.
    + intros Hcnz. rewrite Hcnz. split; [reflexivity|].
      intros s Hs Hday. apply in_calculate_daily_metrics.
      cbn [lhs rhs date_only daily_return].
      split; [exact Hs|]. split; [|split; [now symmetry | reflexivity]].
      apply nth_error_In with (n := S i).
      apply with_returns_nth; [exact Hc|]. rewrite Hret, Hcnz. reflexivity.
Qed.

Lemma daily_returns_zero_close_witness :
  let news_df :=
    [mk_scored (mk_aligned (mk_news (Day 737583) "a" "p") 737584) (1 # 2)] in
  let stock_df := [mk_price 737581 0; mk_price 737584 5] in
  (exists x,
    let r := mk_return (mk_price 737584 5) x 737584 in
    nth_error (with_returns stock_df) 1 = Some r
    /\ (Float.iszero (Float.of_Q 5) = true ->
        x = Float.NaN
        /\ forall m, In m (calculate_daily_metrics group_mean news_df stock_df) ->
             rhs m <> r)
    /\ (Float.iszero (Float.of_Q 5) = false ->
        Float.isinf x = true
        /\ forall s, In s (daily_sentiment group_mean news_df) -> day s = 737584%Z ->
             In (mk_merged s r) (calculate_daily_metrics group_mean news_df stock_df)))
  /\ nth_error (map (fun r => Float.mul r Float.hundred)
                    (pct_change [S754_zero true; Float.of_Q 5])) 1
     = Some (S754_infinity true).
Proof.
  intros news_df stock_df. split.
  - apply (proj2 (daily_returns_zero_close group_mean news_df stock_df 0
                    (mk_price 737581 0) (mk_price 737584 5))).
    + reflexivity.
    + reflexivity.
    + reflexivity.
  - pose proof (proj1 (daily_returns_zero_close group_mean news_df stock_df 0
                         (mk_price 737581 0) (mk_price 737584 5))
                      [S754_zero true; Float.of_Q 5] true (Float.of_Q 5)
                      eq_refl eq_refl) as H.
    vm_compute in H. vm_compute. exact H.
Defined.

(** C3 as stated fails: after a close of 0 the next bar, closing at 5,
    gets the return [+inf], which is neither unset nor dropped, and the
    joined table and the input of the correlation contain it. *)
Lemma daily_returns_infinite_return_joined :
  let news_df :=
    [mk_scored (mk_aligned (mk_news (Day 737583) "a" "p") 737584) (1 # 2)] in
  let stock_df := [mk_price 737581 0; mk_price 737584 5] in
  daily_returns stock_df = [Float.NaN; S754_infinity false]
  /\ map (fun m => daily_return (rhs m)) (calculate_daily_metrics group_mean news_df stock_df)
     = [S754_infinity false]
  /\ forall pearsonr : correlation,
      calculate_correlation pearsonr (calculate_daily_metrics group_mean news_df stock_df)
      = pearsonr [Float.of_Q (1 # 2)] [S754_infinity false].
Proof.
  intros news_df stock_df.
  assert (H : calculate_daily_metrics group_mean news_df stock_df
              = [mk_merged (mk_sentiment 737584 (Float.of_Q (1 # 2)) 1)
                           (mk_return (mk_price 737584 5) (S754_infinity false) 737584)])
    by (vm_compute; reflexivity).
  split; [vm_compute; reflexivity|]. rewrite H. split; [reflexivity|].
  intros pearsonr. reflexivity.
Qed.

(** C9 (as the code has it). Two bars of the same date are not rejected:
    the return calculator keeps both, each with its own return, and the
    summary of their day is joined with each of them that has a defined
    return. *)
Theorem duplicate_dates_pass_through (mean : aggregation)
        (news_df : list scored_row) (stock_df : list price_row)
        (i j : nat) (bi bj : price_row) :
  (i < j)%nat ->
  nth_error stock_df i = Some bi ->
  nth_error stock_df j = Some bj ->
  Date bi = Date bj ->
  map bar (with_returns stock_df) = stock_df
  /\ exists ri rj,
      nth_error (with_returns stock_df) i = Some ri
      /\ nth_error (with_returns stock_df) j = Some rj
      /\ bar ri = bi /\ bar rj = bj
      /\ date_only ri = date_only rj
      /\ forall s, In s (daily_sentiment mean news_df) -> day s = Date bi ->
           (Float.isnan (daily_return ri) = false ->
            In (mk_merged s ri) (calculate_daily_metrics mean news_df stock_df))
           /\ (Float.isnan (daily_return rj) = false ->
               In (mk_merged s rj) (calculate_daily_metrics mean news_df stock_df)).
Proof.
  intros Hij Hi Hj Hdate.
  split; [apply with_returns_bars|].
  assert (Hrow : forall n b, nth_error stock_df n = Some b ->
            exists x, nth_error (daily_returns stock_df) n = Some x).
  { intros n b Hn.
    destruct (nth_error (daily_returns stock_df) n) as [x|] eqn:Hx; [now exists x|].
    apply nth_error_None in Hx. rewrite daily_returns_length in Hx.
    assert (n < List.length stock_df)%nat by (apply nth_error_Some; congruence).
    lia. }
  destruct (Hrow i bi Hi) as [xi Hxi]. destruct (Hrow j bj Hj) as [xj Hxj].
  exists (mk_return bi xi (Date bi)), (mk_return bj xj (Date bj)).
  pose proof (with_returns_nth stock_df i bi xi Hi Hxi) as Hri.
  pose proof (with_returns_nth stock_df j bj xj Hj Hxj) as Hrj.
  repeat split; try assumption; intros Hdef;
    apply in_calculate_daily_metrics; simpl; repeat split; try assumption;
    try congruence.
  - now apply nth_error_In with (n := i).
  - now apply nth_error_In with (n := j).
Qed.

Lemma duplicate_dates_pass_through_witness :
  let news_df :=
    [mk_scored (mk_aligned (mk_news (Day 737583) "a" "p") 737584) (1 # 2)] in
  let stock_df :=
    [mk_price 737581 100; mk_price 737584 110; mk_price 737584 121] in
  map bar (with_returns stock_df) = stock_df
  /\ exists ri rj,
      nth_error (with_returns stock_df) 1 = Some ri
      /\ nth_error (with_returns stock_df) 2 = Some rj
      /\ bar ri = mk_price 737584 110 /\ bar rj = mk_price 737584 121
      /\ date_only ri = date_only rj
      /\ forall s, In s (daily_sentiment group_mean news_df) -> day s = 737584%Z ->
           (Float.isnan (daily_return ri) = false ->
            In (mk_merged s ri) (calculate_daily_metrics group_mean news_df stock_df))
           /\ (Float.isnan (daily_return rj) = false ->
               In (mk_merged s rj) (calculate_daily_metrics group_mean news_df stock_df)).
Proof.
  intros news_df stock_df.
  apply (duplicate_dates_pass_through group_mean news_df stock_df 1 2
           (mk_price 737584 110) (mk_price 737584 121)).
  - lia.
  - reflexivity.
  - reflexivity.
  - reflexivity.
Defined.

(** C9 as stated fails: a price table with two bars dated 737584 goes
    through the return calculator unchanged in length, and the joined
    table has two rows for that day. *)
Lemma duplicate_dates_not_rejected :
  let news_df :=
    [mk_scored (mk_aligned (mk_news (Day 737583) "a" "p") 737584) (1 # 2)] in
  let stock_df :=
    [mk_price 737581 100; mk_price 737584 110; mk_price 737584 121] in
  map date_only (with_returns stock_df) = [737581; 737584; 737584]%Z
  /\ map (fun m => date_only (rhs m)) (calculate_daily_metrics group_mean news_df stock_df)
     = [737584; 737584]%Z
  /\ ~ NoDup (map (fun m => date_only (rhs m))
                  (calculate_daily_metrics group_mean news_df stock_df)).
Proof.
  repeat split. intros H. vm_compute in H.
  inversion H as [|? ? Hnotin _]. apply Hnotin. now left.
Qed.

(** ** Properties of the correlation call *)

Section Correlation.

Lemma is_constant_all (v : Float.t) (x : list Float.t) :
  Forall (fun a => Float.eqb a v = true) x -> is_constant x = true.
Proof.
  intros Hall. destruct x as [|x0 x]; [reflexivity|]. unfold is_constant.
  apply forallb_forall. intros a Ha.
  rewrite Forall_forall in Hall.
  apply float_eqb_trans with (v := v); apply Hall; [now left | exact Ha].
Qed.

Lemma scipy_pearsonr_ends (generic : correlation) :
  (forall x y, generic x y <> OutOfFuel) ->
  forall x y, scipy_pearsonr generic x y <> OutOfFuel.
Proof.
  intros Hg x y. unfold scipy_pearsonr. cbv zeta.
  destruct (negb (List.length x =? List.length y)%nat); [discriminate|].
  destruct (List.length x <? 2)%nat; [discriminate|].
  destruct (is_constant x || is_constant y); [discriminate | apply Hg].
Qed.

End Correlation.

(** C4 (as the code has it). The estimator checks nothing itself and
    returns or raises what [pearsonr] does. With the library's argument
    checks, a joined table of fewer than 2 rows makes it fail with a
    [ValueError], and a table of at least 2 rows with a constant sentiment
    or return column makes it return [nan] for both results. *)
Theorem calculate_correlation_checks
        (generic : correlation) (merged_df : list merged_row) :
  (forall pearsonr : correlation,
      calculate_correlation pearsonr merged_df
      = pearsonr (map (fun m => avg_sentiment (lhs m)) merged_df)
                 (map (fun m => daily_return (rhs m)) merged_df))
  /\ ((List.length merged_df < 2)%nat ->
      exists e,
        calculate_correlation (scipy_pearsonr generic) merged_df = Raise e
        /\ exn_class e = "ValueError"%string)
  /\ ((2 <= List.length merged_df)%nat ->
      (exists v, Forall (fun m => Float.eqb (avg_sentiment (lhs m)) v = true)
                        merged_df)
      \/ (exists v, Forall (fun m => Float.eqb (daily_return (rhs m)) v = true)
                           merged_df) ->
      calculate_correlation (scipy_pearsonr generic) merged_df
      = Return (Float.NaN, Float.NaN)).
Proof.
  split; [reflexivity|].
  unfold calculate_correlation, scipy_pearsonr. cbv zeta.
  rewrite !length_map, Nat.eqb_refl. simpl negb. cbv iota.
  split.
  - intros Hlen. apply Nat.ltb_lt in Hlen. rewrite Hlen.
    eexists. split; reflexivity.
  - intros Hlen Hconst.
    replace (List.length merged_df <? 2)%nat with false
      by (symmetry; apply Nat.ltb_ge; exact Hlen).
    replace (is_constant _ || is_constant _) with true; [reflexivity|].
    symmetry. apply orb_true_iff.
    destruct Hconst as [[v Hv]|[v Hv]]; [left | right];
      apply is_constant_all with (v := v); now apply Forall_map.
Qed.

Lemma calculate_correlation_checks_witness :
  let generic : correlation := fun _ _ => Return (Float.one, Float.one) in
  let merged_df :=
    [mk_merged (mk_sentiment 737584 (Float.of_Q (1 # 2)) 1)
               (mk_return (mk_price 737584 110) (Float.of_Z 10) 737584)] in
  exists e,
    calculate_correlation (scipy_pearsonr generic) merged_df = Raise e
    /\ exn_class e = "ValueError"%string.
Proof.
  intros generic merged_df.
  apply (proj1 (proj2 (calculate_correlation_checks generic merged_df))).
  simpl. lia.
Defined.

(** C4 as stated fails: on the empty joined table the error raised is a
    [ValueError], not an [InsufficientDataError], and on a table of two
    rows with the same average sentiment the estimator returns
    [(nan, nan)] instead of failing. *)
Lemma calculate_correlation_no_precondition_errors :
  let generic : correlation := fun _ _ => Return (Float.one, Float.one) in
  let merged_df :=
    [mk_merged (mk_sentiment 737584 (Float.of_Q (1 # 2)) 1)
               (mk_return (mk_price 737584 110) (Float.of_Z 10) 737584);
     mk_merged (mk_sentiment 737585 (Float.of_Q (1 # 2)) 2)
               (mk_return (mk_price 737585 99) (Float.of_Z (-10)) 737585)] in
  ~ (exists e,
        calculate_correlation (scipy_pearsonr generic) [] = Raise e
        /\ exn_class e = "InsufficientDataError"%string)
  /\ calculate_correlation (scipy_pearsonr generic) merged_df
     = Return (Float.NaN, Float.NaN).
Proof.
  split.
  - intros [e [He Hclass]]. vm_compute in He. injection He as <-.
    discriminate Hclass.
  - vm_compute. reflexivity.
Qed.

(** ** Properties of the whole run *)

Lemma apply_ends {A B : Type} (f : A -> outcome B) (l : list A) :
  Forall (fun x => f x <> OutOfFuel) l -> Py.apply f l <> OutOfFuel.
Proof.
  induction 1 as [|x l Hx _ IH]; simpl; [discriminate|].
  destruct (f x); simpl; try congruence.
  destruct (Py.apply f l); simpl; congruence.
Qed.

(** [Series.apply] returns when the function returns on every element. *)
Lemma apply_return {A B : Type} (f : A -> outcome B) (l : list A) (ys : list B) :
  Py.apply f l = Return ys <-> Forall2 (fun x y => f x = Return y) l ys.
Proof.
  revert ys. induction l as [|x l IH]; intros ys; simpl.
  - split.
    + intros H. injection H as <-. constructor.
    + intros H. inversion H. reflexivity.
  - split.
    + intros H. destruct (f x) as [y| |] eqn:Hx; simpl in H; try discriminate.
      destruct (Py.apply f l) as [ys'| |] eqn:Hl; simpl in H; try discriminate.
      injection H as <-. constructor; [exact Hx | now apply IH].
    + intros H. inversion H as [|? y ? ys' Hx Hl]; subst.
      rewrite Hx. simpl. apply IH in Hl. now rewrite Hl.
Qed.

(** [Series.apply] stops at the first element on which the function does
    not return: the elements after it are not looked at. *)
Lemma apply_first_raise {A B : Type} (f : A -> outcome B) (pre post : list A)
      (x : A) (e : exn) :
  Forall (fun a => (exists y, f a = Return y) \/ f a = Raise e) pre ->
  f x = Raise e ->
  Py.apply f (pre ++ x :: post) = Raise e.
Proof.
  intros Hpre Hx. induction Hpre as [|a pre [[y Ha]|Ha] _ IH]; simpl.
  - now rewrite Hx.
  - rewrite Ha. simpl. now rewrite IH.
  - now rewrite Ha.
Qed.

Lemma apply_first_hang {A B : Type} (f : A -> outcome B) (pre post : list A)
      (x : A) (ys : list B) :
  Py.apply f pre = Return ys ->
  f x = OutOfFuel ->
  Py.apply f (pre ++ x :: post) = OutOfFuel.
Proof.
  intros Hpre Hx. apply apply_return in Hpre.
  induction Hpre as [|a y pre ys Ha _ IH]; simpl.
  - now rewrite Hx.
  - rewrite Ha. simpl. now rewrite IH.
Qed.

Section AlignerResults.

Variable trading_days : list Z.

(** Whatever the scan returns is the first trading day it could meet. *)
Lemma adjust_loop_return (fuel : nat) :
  forall t d,
    adjust_loop fuel trading_days (Day t) = Return d ->
    In d trading_days /\ (t <= d)%Z
    /\ forall d', In d' trading_days -> (t <= d')%Z -> (d <= d')%Z.
Proof.
  induction fuel as [|fuel IH]; intros t d H; [discriminate|].
  cbn [adjust_loop] in H.
  destruct (date_in (Day t) trading_days) eqn:Hin; cbn [negb] in H.
  - injection H as <-. apply date_in_spec in Hin. repeat split; [assumption|lia|tauto].
  - apply date_in_false in Hin. unfold Date.add_days in H. cbv zeta in H.
    destruct ((0 <? t + 1)%Z && (t + 1 <=? Date.MAXORDINAL)%Z); cbn [bind] in H;
      [|discriminate].
    destruct (IH _ _ H) as [Hd [Hle Hleast]].
    repeat split; [assumption | lia |].
    intros d' Hd' Ht. apply Hleast; [assumption|].
    assert (d' <> t) by (intros ->; contradiction). lia.
Qed.

(** The only exception of the scan is the overflow of the date. *)
Lemma adjust_loop_raise (fuel : nat) :
  forall date e,
    adjust_loop fuel trading_days date = Raise e ->
    e = OverflowError "date value out of range".
Proof.
  induction fuel as [|fuel IH]; intros date e H; [discriminate|].
  destruct date as [|t]; [now rewrite adjust_loop_NaT in H|].
  cbn [adjust_loop] in H.
  destruct (date_in (Day t) trading_days); cbn [negb] in H; [discriminate|].
  unfold Date.add_days in H. cbv zeta in H.
  destruct ((0 <? t + 1)%Z && (t + 1 <=? Date.MAXORDINAL)%Z); cbn [bind] in H.
  - now apply IH in H.
  - now injection H as <-.
Qed.

(** A row with a date is aligned or stops the alignment with the
    overflow of the date. *)
Lemma align_dates_row (r : news_row) :
  dated r ->
  (exists a, (d <- adjust_to_trading_day trading_days (date r) ;;
              Return (mk_aligned r d)) = Return a)
  \/ (d <- adjust_to_trading_day trading_days (date r) ;; Return (mk_aligned r d))
     = Raise (OverflowError "date value out of range").
Proof.
  intros [t Ht]. rewrite Ht.
  pose proof (adjust_to_trading_day_ends trading_days t) as Hends.
  pose proof (adjust_loop_raise (lookahead (Day t)) (Day t)) as Hraise.
  unfold adjust_to_trading_day in *.
  destruct (adjust_loop (lookahead (Day t)) trading_days (Day t)) as [d|e|]; simpl.
  - left. now eexists.
  - right. now rewrite (Hraise e eq_refl).
  - congruence.
Qed.

End AlignerResults.

Lemma adjust_loop_ext (c c' : list Z) :
  (forall d, In d c <-> In d c') ->
  forall fuel date, adjust_loop fuel c date = adjust_loop fuel c' date.
Proof.
  intros Hsame. induction fuel as [|fuel IH]; intros date; [reflexivity|].
  destruct date as [|t]; [now rewrite !adjust_loop_NaT|].
  cbn [adjust_loop]. replace (date_in (Day t) c') with (date_in (Day t) c).
  - destruct (date_in (Day t) c); cbn [negb]; [reflexivity|].
    destruct (Date.add_days (Day t) 1); cbn [bind]; [apply IH | reflexivity | reflexivity].
  - destruct (date_in (Day t) c) eqn:Hc; symmetry.
    + apply date_in_spec. apply Hsame. now apply date_in_spec.
    + apply date_in_false. rewrite <- Hsame. now apply date_in_false.
Qed.

(** The alignment of a table whose rows all have a date ends. *)
Lemma align_dates_ends (news_df : list news_row) (stock_df : list price_row) :
  Forall dated news_df -> align_dates news_df stock_df <> OutOfFuel.
Proof.
  intros Hall. unfold align_dates. destruct stock_df as [|b l]; [discriminate|].
  cbv zeta. apply apply_ends.
  apply (Forall_impl _ (P := dated)); [|exact Hall].
  intros r Hr. destruct (align_dates_row (unique (map Date (b :: l))) r Hr) as [[a Ha]|Ha];
    rewrite Ha; discriminate.
Qed.

(** The alignment never ends on a row without a date that comes after
    rows that are aligned. *)
Lemma align_dates_hangs (pre post : list news_row) (r : news_row)
      (stock_df : list price_row) (aligned_df : list aligned_row) :
  align_dates pre stock_df = Return aligned_df ->
  date r = NaT ->
  align_dates (pre ++ r :: post) stock_df = OutOfFuel.
Proof.
  unfold align_dates. destruct stock_df as [|b l]; [discriminate|]. cbv zeta.
  intros Hpre Hr. apply (apply_first_hang _ _ _ _ _ Hpre).
  rewrite Hr. reflexivity.
Qed.

(** The aligned dates of a successful alignment are dates of the price
    table. *)
Lemma align_dates_rows (news_df : list news_row) (stock_df : list price_row)
      (aligned_df : list aligned_row) :
  align_dates news_df stock_df = Return aligned_df ->
  Forall (fun a => In (aligned_date a) (map Date stock_df)) aligned_df.
Proof.
  unfold align_dates. destruct stock_df as [|b l]; [discriminate|]. cbv zeta.
  intros H. apply apply_return in H.
  induction H as [|r a rs al Hr _ IH]; constructor; [|exact IH].
  destruct (adjust_to_trading_day _ (date r)) as [d| |] eqn:Hd;
    simpl in Hr; try discriminate.
  injection Hr as <-. cbn [aligned_date].
  unfold adjust_to_trading_day in Hd.
  destruct (date r) as [|t]; [now rewrite adjust_loop_NaT in Hd|].
  apply adjust_loop_return in Hd. apply unique_In. tauto.
Qed.

(** C10 (as the code has it). When the library's correlation function
    returns or raises and every news row has a date, a run returns either
    the record with the six keys [symbol], [correlation], [p_value],
    [num_observations], [merged_data_path] and [visualization_path], or a
    dictionary with the single key [error] whose value is the text "Data
    loading failed" or the message of the exception that stopped the run,
    which does not name the stage. A run that comes, after one or more
    rows that are aligned (the column [date] then holds dates, and a blank
    cell of it is [NaT]), to a news row without a date never returns. *)
Theorem run_analysis_result_or_error (w : world) (symbol output_dir : string) :
  (forall x y, pearsonr w x y <> OutOfFuel) ->
  ((forall news_df stock_df,
       load_data w = Some (news_df, stock_df) -> Forall dated news_df) ->
   exists d,
     run_analysis w symbol output_dir = Return d
     /\ ((exists corr p n merged_path viz_path,
             d = [("symbol"%string, VStr symbol);
                  ("correlation"%string, VFloat corr);
                  ("p_value"%string, VFloat p);
                  ("num_observations"%string, VInt n);
                  ("merged_data_path"%string, VStr merged_path);
                  ("visualization_path"%string, VStr viz_path)])
         \/ (exists msg,
               d = [("error"%string, VStr msg)]
               /\ (msg = "Data loading failed"%string
                   \/ exists e, run_analysis_try w symbol output_dir = Raise e
                                /\ msg = exn_msg e))))
  /\ (forall pre r post stock_df aligned_df,
        makedirs w output_dir = None ->
        load_data w = Some (pre ++ r :: post, stock_df) ->
        pre <> [] ->
        align_dates pre stock_df = Return aligned_df ->
        date r = NaT ->
        run_analysis w symbol output_dir = OutOfFuel).
Proof.
  intros Hlib. split.
  - intros Hdated. unfold run_analysis.
    destruct (run_analysis_try w symbol output_dir) as [d|e|] eqn:Htry.
    + exists d. split; [reflexivity|].
      unfold run_analysis_try in Htry.
      destruct (makedirs w output_dir); simpl in Htry; [discriminate|].
      destruct (load_data w) as [[news_df stock_df]|].
      * destruct (align_dates news_df stock_df) as [aligned_df| |];
          simpl in Htry; try discriminate.
        destruct (calculate_correlation _ _) as [[corr p]| |];
          simpl in Htry; try discriminate.
        destruct (to_csv w _ _); simpl in Htry; [discriminate|].
        destruct (visualize_results w _ _ _); simpl in Htry; [discriminate|].
        injection Htry as <-. left. repeat eexists.
      * injection Htry as <-. right. eexists. split; [reflexivity | now left].
    + eexists. split; [reflexivity|]. right. eexists. split; [reflexivity|].
      right. exists e. split; reflexivity.
    + exfalso. unfold run_analysis_try in Htry.
      destruct (makedirs w output_dir); simpl in Htry; [discriminate|].
      destruct (load_data w) as [[news_df stock_df]|]; [|discriminate].
      pose proof (align_dates_ends news_df stock_df (Hdated _ _ eq_refl)) as Halign.
      destruct (align_dates news_df stock_df) as [aligned_df| |];
        simpl in Htry; try discriminate; try congruence.
      unfold calculate_correlation in Htry.
      match type of Htry with
      | context [pearsonr w ?x ?y] =>
          pose proof (Hlib x y) as Hp; destruct (pearsonr w x y) as [[corr p]| |]
      end; simpl in Htry; try discriminate; try congruence.
      destruct (to_csv w _ _); simpl in Htry; [discriminate|].
      destruct (visualize_results w _ _ _); simpl in Htry; discriminate.
  - intros pre r post stock_df aligned_df Hdir Hload _ Hpre Hr.
    unfold run_analysis, run_analysis_try. rewrite Hdir, Hload. cbn [call bind].
    now rewrite (align_dates_hangs pre post r stock_df aligned_df Hpre Hr).
Qed.

Lemma run_analysis_result_or_error_witness :
  let undated :=
    mk_world (fun _ => None)
             (Return (mk_csv ["date"; "headline"; "publisher"]%string
                             [mk_news (Day 737582) "good" "p"; mk_news NaT "bad" "q"]))
             (Return (mk_csv ["Date"; "Close"]%string sample_stock))
             sample_polarity
             group_mean
             (scipy_pearsonr (fun _ _ => Return (Float.one, Float.one)))
             (fun _ _ => None) (fun _ _ _ => None) in
  (exists d,
    run_analysis (sample_world None None) "AAPL" "../results" = Return d
    /\ ((exists corr p n merged_path viz_path,
            d = [("symbol"%string, VStr "AAPL");
                 ("correlation"%string, VFloat corr);
                 ("p_value"%string, VFloat p);
                 ("num_observations"%string, VInt n);
                 ("merged_data_path"%string, VStr merged_path);
                 ("visualization_path"%string, VStr viz_path)])
        \/ (exists msg,
              d = [("error"%string, VStr msg)]
              /\ (msg = "Data loading failed"%string
                  \/ exists e,
                      run_analysis_try (sample_world None None) "AAPL" "../results"
                      = Raise e
                      /\ msg = exn_msg e))))
  /\ run_analysis undated "AAPL" "../results" = OutOfFuel.
Proof.
  intros undated. split.
  - apply (run_analysis_result_or_error (sample_world None None) "AAPL" "../results").
    + simpl. apply scipy_pearsonr_ends. intros x y. discriminate.
    + intros news_df stock_df Hload. injection Hload as <- _.
      repeat constructor; eexists; reflexivity.
  - assert (Hlib : forall x y, pearsonr undated x y <> OutOfFuel).
    { apply scipy_pearsonr_ends. intros x y. discriminate. }
    apply (proj2 (run_analysis_result_or_error undated "AAPL" "../results" Hlib)
                 [mk_news (Day 737582) "good" "p"] (mk_news NaT "bad" "q") []
                 sample_stock
                 [mk_aligned (mk_news (Day 737582) "good" "p") 737584]).
    + reflexivity.
    + reflexivity.
    + discriminate.
    + vm_compute. reflexivity.
    + reflexivity.
Defined.

(** The sample run with no failure: both news rows are aligned, joined
    with their bars, and the record of results is returned. *)
Example run_analysis_sample_ok :
  run_analysis (sample_world None None) "AAPL" "../results"
  = Return [("symbol"%string, VStr "AAPL");
            ("correlation"%string, VFloat Float.one);
            ("p_value"%string, VFloat Float.one);
            ("num_observations"%string, VInt 2);
            ("merged_data_path"%string, VStr "../results/AAPL_news_stock_merged.csv");
            ("visualization_path"%string, VStr "../results/AAPL_correlation_plot.png")].
Proof.
  vm_compute. reflexivity.
Qed.

(** C10 as stated fails: the error value does not tell the failing stage.
    A run stopped while the merged table is written and a run stopped
    while the plot is rendered, by the same full disk, return the same
    dictionary. *)
Lemma run_analysis_error_hides_stage :
  (forall path df, to_csv (sample_world (Some disk_full) None) path df = Some disk_full)
  /\ (forall path df, to_csv (sample_world None (Some disk_full)) path df = None)
  /\ (forall path news_df df,
         visualize_results (sample_world None (Some disk_full)) path news_df df
         = Some disk_full)
  /\ run_analysis (sample_world (Some disk_full) None) "AAPL" "../results"
     = Return [("error"%string, VStr "[Errno 28] No space left on device")]
  /\ run_analysis (sample_world None (Some disk_full)) "AAPL" "../results"
     = Return [("error"%string, VStr "[Errno 28] No space left on device")].
Proof.
  repeat split; vm_compute; reflexivity.
Qed.

(** The end-to-end scenario: three events of a Saturday and five trading
    days from the Friday before. All three are aligned to the Monday, the
    aggregation has the single summary of that Monday with a count of 3,
    and the join has exactly one row, for that Monday. *)
Example weekend_news_scenario :
  let news_df :=
    [mk_news (Day 737582) "good" "p"; mk_news (Day 737582) "bad" "q";
     mk_news (Day 737582) "good" "r"] in
  let stock_df :=
    [mk_price 737581 100; mk_price 737584 110; mk_price 737585 99;
     mk_price 737586 99; mk_price 737587 101] in
  exists aligned_df,
    align_dates news_df stock_df = Return aligned_df
    /\ map aligned_date aligned_df = [737584; 737584; 737584]%Z
    /\ map (fun s => (day s, news_count s))
           (daily_sentiment group_mean (analyze_sentiment sample_polarity aligned_df))
       = [(737584%Z, 3%nat)]
    /\ map (fun m => date_only (rhs m))
           (calculate_daily_metrics group_mean (analyze_sentiment sample_polarity aligned_df)
                                    stock_df)
       = [737584%Z].
Proof.
  eexists. split; [vm_compute; reflexivity|]. repeat split.
Qed.

(** ** More on alignment *)

(** X1. The aligned date depends on the set of trading days only: the
    order of the calendar and repeated dates in it change nothing. *)
Theorem adjust_to_trading_day_calendar_set (c c' : list Z) (t : Z) :
  (forall d, In d c <-> In d c') ->
  adjust_to_trading_day c (Day t) = adjust_to_trading_day c' (Day t).
Proof.
  intros Hsame. unfold adjust_to_trading_day. now apply adjust_loop_ext.
Qed.

Lemma adjust_to_trading_day_calendar_set_witness :
  adjust_to_trading_day [737584; 737581; 737584]%Z (Day 737582)
  = adjust_to_trading_day [737581; 737584]%Z (Day 737582).
Proof.
  apply adjust_to_trading_day_calendar_set.
  intros d. simpl. tauto.
Defined.

(** X2. Alignment keeps the order of dates: of two news dates that are
    both aligned, the later one is not aligned to an earlier trading day. *)
Theorem adjust_to_trading_day_monotone (trading_days : list Z) (t1 t2 d1 d2 : Z) :
  (t1 <= t2)%Z ->
  adjust_to_trading_day trading_days (Day t1) = Return d1 ->
  adjust_to_trading_day trading_days (Day t2) = Return d2 ->
  (d1 <= d2)%Z.
Proof.
  intros Hle H1 H2.
  apply adjust_loop_return in H1. apply adjust_loop_return in H2.
  destruct H1 as [_ [_ Hleast]]. destruct H2 as [Hin [Ht2 _]].
  apply Hleast; [assumption | lia].
Qed.

Lemma adjust_to_trading_day_monotone_witness :
  adjust_to_trading_day [737581; 737584; 737585]%Z (Day 737582) = Return 737584%Z
  /\ adjust_to_trading_day [737581; 737584; 737585]%Z (Day 737585) = Return 737585%Z
  /\ (737584 <= 737585)%Z.
Proof.
  assert (H1 : adjust_to_trading_day [737581; 737584; 737585]%Z (Day 737582)
               = Return 737584%Z) by (vm_compute; reflexivity).
  assert (H2 : adjust_to_trading_day [737581; 737584; 737585]%Z (Day 737585)
               = Return 737585%Z) by (vm_compute; reflexivity).
  split; [exact H1 | split; [exact H2 |]].
  apply (adjust_to_trading_day_monotone [737581; 737584; 737585]%Z
           737582%Z 737585%Z).
  - discriminate.
  - exact H1.
  - exact H2.
Defined.

(** X3. When the price table is not empty and every news row has a date,
    not after the latest date of the price table, [align_dates] returns
    one aligned row per news row, in the same order, and every aligned
    date is the earliest date of the price table that is not before the
    news date. *)
Theorem align_dates_all_aligned (news_df : list news_row) (stock_df : list price_row) :
  stock_df <> [] ->
  Forall (fun b => Date.valid (Date b)) stock_df ->
  Forall (fun r => exists t, date r = Day t /\ Date.valid t
                             /\ (t <= max_date (map Date stock_df))%Z) news_df ->
  exists aligned_df,
    align_dates news_df stock_df = Return aligned_df
    /\ map news aligned_df = news_df
    /\ Forall (fun a =>
                 exists t, date (news a) = Day t
                 /\ In (aligned_date a) (map Date stock_df)
                 /\ (t <= aligned_date a)%Z
                 /\ forall b, In b stock_df ->
                      (t <= Date b)%Z ->
                      (aligned_date a <= Date b)%Z)
              aligned_df.
Proof.
  intros Hne Hvalid Hnews.
  assert (Hdates : Forall Date.valid (map Date stock_df)) by (now apply Forall_map).
  assert (Hne' : map Date stock_df <> []) by (destruct stock_df; [congruence | discriminate]).
  pose proof (max_date_in _ Hne' Hdates) as Hmax.
  assert (Hmaxv : (max_date (map Date stock_df) <= Date.MAXORDINAL)%Z).
  { rewrite Forall_forall in Hdates. apply (Hdates _ Hmax). }
  unfold align_dates. destruct stock_df as [|b0 l0]; [congruence|]. cbv zeta.
  induction Hnews as [|r l [t [Hdate [Hr Hle]]] _ IH].
  - exists []. repeat split; constructor.
  - destruct IH as [al [Hal [Hmap Hall]]].
    destruct (adjust_loop_finds (unique (map Date (b0 :: l0)))
                (max_date (map Date (b0 :: l0)))
                (proj2 (unique_In _ _) Hmax) Hmaxv
                (lookahead (Day t)) t)
      as [d [Hd [Hdin [Hrange Hleast]]]].
    + unfold Date.valid in Hr. lia.
    + unfold lookahead. unfold Date.valid in Hr. lia.
    + exists (mk_aligned r d :: al). cbn [Py.apply].
      unfold adjust_to_trading_day at 1. rewrite Hdate, Hd. cbn [bind].
      rewrite Hal. cbn [bind].
      split; [reflexivity|]. split; [cbn [map news]; now rewrite Hmap|].
      constructor; [|exact Hall]. cbn [news aligned_date]. exists t.
      split; [exact Hdate|]. split; [now apply unique_In|]. split; [lia|].
      intros b Hb Hdb. apply Hleast; [|exact Hdb].
      apply unique_In. now apply in_map.
Qed.

Lemma align_dates_all_aligned_witness :
  exists aligned_df,
    align_dates sample_news sample_stock = Return aligned_df
    /\ map news aligned_df = sample_news
    /\ Forall (fun a =>
                 exists t, date (news a) = Day t
                 /\ In (aligned_date a) (map Date sample_stock)
                 /\ (t <= aligned_date a)%Z
                 /\ forall b, In b sample_stock ->
                      (t <= Date b)%Z ->
                      (aligned_date a <= Date b)%Z)
              aligned_df.
Proof.
  apply align_dates_all_aligned.
  - discriminate.
  - repeat constructor; discriminate.
  - constructor; [exists 737582%Z; repeat split; discriminate|].
    constructor; [exists 737585%Z; repeat split; discriminate|].
    constructor.
Defined.

(** X4. On a price table that is not empty, the first news row dated after
    its latest date, when the rows before it have a date, makes the whole
    of [align_dates] fail with the [OverflowError] of the date addition,
    whatever the rows after it are; a run that got as far as the alignment
    then returns that error's text under the key [error]. *)
Theorem align_dates_one_late_row
        (pre post : list news_row) (stock_df : list price_row)
        (r : news_row) (t : Z) :
  stock_df <> [] ->
  Forall dated pre ->
  date r = Day t ->
  Date.valid t ->
  (max_date (map Date stock_df) < t)%Z ->
  align_dates (pre ++ r :: post) stock_df
  = Raise (OverflowError "date value out of range")
  /\ forall (w : world) (symbol output_dir : string),
      makedirs w output_dir = None ->
      load_data w = Some (pre ++ r :: post, stock_df) ->
      run_analysis w symbol output_dir
      = Return [("error"%string, VStr "date value out of range")].
Proof.
  intros Hne Hpre Hdate Hvalid Hlate.
  assert (Halign : align_dates (pre ++ r :: post) stock_df
                   = Raise (OverflowError "date value out of range")).
  { unfold align_dates. destruct stock_df as [|b0 l0]; [congruence|]. cbv zeta.
    apply apply_first_raise.
    - apply (Forall_impl _ (P := dated)); [|exact Hpre].
      intros a Ha. now apply align_dates_row.
    - rewrite Hdate. unfold adjust_to_trading_day, lookahead.
      rewrite adjust_loop_overflow.
      + reflexivity.
      + intros m Hm. apply (proj1 (unique_In _ _)) in Hm.
        pose proof (max_date_ge _ _ Hm). lia.
      + unfold Date.valid in Hvalid. lia.
      + apply Nat.lt_succ_diag_r. }
  split; [exact Halign|].
  intros w symbol output_dir Hdir Hload.
  unfold run_analysis, run_analysis_try. rewrite Hdir, Hload. cbn [call bind].
  rewrite Halign. reflexivity.
Qed.

Lemma align_dates_one_late_row_witness :
  let news_df :=
    [mk_news (Day 737582) "good" "p"; mk_news (Day 737590) "late" "q";
     mk_news NaT "undated" "r"] in
  let w :=
    mk_world (fun _ => None)
             (Return (mk_csv ["date"; "headline"; "publisher"]%string news_df))
             (Return (mk_csv ["Date"; "Close"]%string sample_stock))
             sample_polarity
             group_mean
             (fun _ _ => Return (Float.one, Float.one))
             (fun _ _ => None) (fun _ _ _ => None) in
  align_dates news_df sample_stock
  = Raise (OverflowError "date value out of range")
  /\ run_analysis w "AAPL" "../results"
     = Return [("error"%string, VStr "date value out of range")].
Proof.
  intros news_df w.
  destruct (align_dates_one_late_row
              [mk_news (Day 737582) "good" "p"] [mk_news NaT "undated" "r"]
              sample_stock (mk_news (Day 737590) "late" "q") 737590)
    as [Halign Hrun].
  - discriminate.
  - repeat constructor. now exists 737582%Z.
  - reflexivity.
  - split; discriminate.
  - reflexivity.
  - split; [exact Halign|]. apply Hrun; reflexivity.
Defined.

(** ** More on the daily aggregation *)

(** X5. No event is lost or counted twice by the aggregation: the counts
    of the daily summaries add up to the number of news rows. *)
Theorem daily_sentiment_counts_total (mean : aggregation) (news_df : list scored_row) :
  list_sum (map news_count (daily_sentiment mean news_df)) = List.length news_df.
Proof.
  unfold daily_sentiment. rewrite map_map. cbn [news_count].
  apply groupby_counts.
Qed.

(** ** More on the join *)

Lemma with_returns_row (stock_df : list price_row) (i : nat) (r : return_row) :
  nth_error (with_returns stock_df) i = Some r ->
  nth_error stock_df i = Some (bar r)
  /\ nth_error (daily_returns stock_df) i = Some (daily_return r)
  /\ date_only r = Date (bar r).
Proof.
  intros Hr. repeat split.
  - rewrite <- (with_returns_bars stock_df) at 1. now rewrite nth_error_map, Hr.
  - rewrite <- (with_returns_returns stock_df). now rewrite nth_error_map, Hr.
  - apply nth_error_In in Hr. unfold with_returns in Hr.
    apply in_map_iff in Hr. destruct Hr as [[b x] [<- _]]. reflexivity.
Qed.

Lemma with_returns_length (stock_df : list price_row) :
  List.length (with_returns stock_df) = List.length stock_df.
Proof.
  rewrite <- (with_returns_bars stock_df) at 2. now rewrite length_map.
Qed.

(** The first row of the price table has no return. *)
Lemma with_returns_head (b : price_row) (l : list price_row) :
  exists r tl, with_returns (b :: l) = r :: tl
               /\ daily_return r = Float.NaN
               /\ map bar tl = l.
Proof.
  pose proof (with_returns_bars (b :: l)) as Hbars.
  pose proof (with_returns_returns (b :: l)) as Hrets.
  pose proof (daily_returns_first (b :: l) b eq_refl) as Hfirst.
  destruct (with_returns (b :: l)) as [|r tl]; [discriminate|].
  exists r, tl. split; [reflexivity|]. simpl in Hbars, Hrets. split.
  - rewrite <- Hrets in Hfirst. simpl in Hfirst. congruence.
  - congruence.
Qed.

(** X10. News aligned to the first day of the price table are left out of
    the analysis: when no later price row repeats the date of the first
    one, no row of the joined table is for that date. *)
Theorem first_bar_not_joined (mean : aggregation)
        (news_df : list scored_row) (b : price_row) (rest : list price_row) :
  ~ In (Date b) (map Date rest) ->
  forall m, In m (calculate_daily_metrics mean news_df (b :: rest)) ->
            date_only (rhs m) <> Date b.
Proof.
  intros Hfresh m Hm Hdate.
  apply in_calculate_daily_metrics in Hm.
  destruct Hm as [_ [Hr [_ Hdef]]].
  apply In_nth_error in Hr. destruct Hr as [i Hi].
  destruct (with_returns_row _ _ _ Hi) as [Hbar [Hret Hd]].
  destruct i as [|i].
  - rewrite (daily_returns_first (b :: rest) b eq_refl) in Hret.
    injection Hret as Hnan. rewrite <- Hnan in Hdef. discriminate.
  - simpl in Hbar. apply nth_error_In in Hbar.
    apply Hfresh. rewrite <- Hdate, Hd. now apply in_map.
Qed.

Lemma first_bar_not_joined_witness :
  let news_df :=
    [mk_scored (mk_aligned (mk_news (Day 737581) "a" "p") 737581) (1 # 2);
     mk_scored (mk_aligned (mk_news (Day 737583) "b" "q") 737584) (1 # 4)] in
  let m :=
    mk_merged (mk_sentiment 737584 (Float.of_Q (1 # 4)) 1)
              (mk_return (mk_price 737584 110)
                         (S754_finite false 5629499534213125 (-49)) 737584) in
  In m (calculate_daily_metrics group_mean news_df sample_stock)
  /\ date_only (rhs m) <> 737581%Z.
Proof.
  intros news_df m.
  assert (Hm : In m (calculate_daily_metrics group_mean news_df sample_stock))
    by (vm_compute; left; reflexivity).
  split; [exact Hm|].
  apply (first_bar_not_joined group_mean news_df (mk_price 737581 100)
           [mk_price 737584 110; mk_price 737585 99]); [|exact Hm].
  simpl. intuition discriminate.
Defined.

Lemma merge_sorted_strict (l : list sentiment_row) (r : list return_row) :
  StronglySorted Z.lt (map day l) ->
  NoDup (map date_only r) ->
  StronglySorted Z.lt (map (fun m => date_only (rhs m)) (merge l r)).
Proof.
  intros Hs Hnd. induction l as [|s l IH]; simpl; [constructor|].
  inversion Hs as [|? ? Hrest Hall]; subst.
  change (flat_map _ l) with (merge l r).
  assert (Hlater : Forall (Z.lt (day s))
                     (map (fun m => date_only (rhs m)) (merge l r))).
  { apply Forall_forall. intros d Hd.
    apply in_map_iff in Hd. destruct Hd as [m [<- Hm]].
    apply in_merge in Hm. destruct Hm as [Hl [_ ->]].
    rewrite Forall_forall in Hall. apply Hall. now apply in_map. }
  pose proof (count_key_le_1 date_only (day s) r Hnd) as Hcount.
  destruct (filter (fun x => (date_only x =? day s)%Z) r) as [|x [|y tl]] eqn:Hf;
    simpl in Hcount; try lia; simpl.
  - now apply IH.
  - constructor; [now apply IH|].
    assert (Hx : In x (filter (fun x => (date_only x =? day s)%Z) r))
      by (rewrite Hf; now left).
    apply filter_In in Hx. destruct Hx as [_ Hkey]. apply Z.eqb_eq in Hkey.
    now rewrite Hkey.
Qed.

(** X11. When no two price rows have the same date, the joined table has
    at most one row per day: its days are strictly increasing. *)
Theorem calculate_daily_metrics_one_row_per_day (mean : aggregation)
        (news_df : list scored_row) (stock_df : list price_row) :
  NoDup (map Date stock_df) ->
  StronglySorted Z.lt
    (map (fun m => date_only (rhs m)) (calculate_daily_metrics mean news_df stock_df)).
Proof.
  intros Hnd. unfold calculate_daily_metrics. rewrite dropna_merge.
  apply merge_sorted_strict.
  - rewrite daily_sentiment_days. apply groupby_sorted.
  - apply nodup_map_filter. now rewrite with_returns_dates.
Qed.

Lemma calculate_daily_metrics_one_row_per_day_witness :
  StronglySorted Z.lt
    (map (fun m => date_only (rhs m))
         (calculate_daily_metrics group_mean
            [mk_scored (mk_aligned (mk_news (Day 737583) "a" "p") 737584) (1 # 2)]
            sample_stock)).
Proof.
  apply (calculate_daily_metrics_one_row_per_day group_mean).
  repeat constructor; simpl; intuition discriminate.
Defined.

(** X12. The sample of the correlation is smaller than the price table:
    the joined table has at most one row less than the price table, since
    the first price row has no return. *)
Theorem calculate_daily_metrics_size (mean : aggregation)
        (news_df : list scored_row) (stock_df : list price_row) :
  (List.length (calculate_daily_metrics mean news_df stock_df)
   <= Nat.pred (List.length stock_df))%nat.
Proof.
  unfold calculate_daily_metrics. rewrite dropna_merge.
  assert (Hleft : NoDup (map day (daily_sentiment mean news_df))).
  { rewrite daily_sentiment_days. apply sorted_keys_nodup, groupby_sorted. }
  pose proof (merge_length_right (daily_sentiment mean news_df)
                (filter defined_return (with_returns stock_df)) Hleft) as Hlen.
  destruct stock_df as [|b l].
  - simpl in *. lia.
  - destruct (with_returns_head b l) as [r [tl [Heq [Hnan Htl]]]].
    rewrite Heq in Hlen |- *.
    assert (Hfil : filter defined_return (r :: tl) = filter defined_return tl).
    { simpl. unfold defined_return at 1. now rewrite Hnan. }
    rewrite Hfil in Hlen |- *.
    pose proof (filter_length_le defined_return tl) as Hf.
    assert (Htl' : List.length tl = List.length l)
      by (rewrite <- Htl; now rewrite length_map).
    simpl. lia.
Qed.



(** X13. After a successful alignment the inner join discards a daily
    summary only for want of a return: the day of every summary is a date
    of the price table, and the summary is in the joined table exactly
    when a price row of its day has a defined return. *)
Theorem joined_unless_no_return (mean : aggregation)
        (pol : string -> Q) (news_df : list news_row) (stock_df : list price_row)
        (aligned_df : list aligned_row) :
  align_dates news_df stock_df = Return aligned_df ->
  forall s, In s (daily_sentiment mean (analyze_sentiment pol aligned_df)) ->
    In (day s) (map Date stock_df)
    /\ ((exists m,
            In m (calculate_daily_metrics mean (analyze_sentiment pol aligned_df) stock_df)
            /\ lhs m = s)
        <-> exists r, In r (with_returns stock_df)
                      /\ date_only r = day s
                      /\ Float.isnan (daily_return r) = false).
Proof.
  intros Halign s Hs. split.
  - assert (Hday : In (day s) (map day (daily_sentiment mean (analyze_sentiment pol aligned_df))))
      by (now apply in_map).
    rewrite daily_sentiment_days in Hday. apply groupby_keys in Hday.
    apply in_map_iff in Hday. destruct Hday as [r [<- Hr]].
    unfold analyze_sentiment in Hr. apply in_map_iff in Hr.
    destruct Hr as [a [<- Ha]]. simpl.
    pose proof (align_dates_rows _ _ _ Halign) as Hall.
    rewrite Forall_forall in Hall. now apply Hall.
  - split.
    + intros [m [Hm <-]]. apply in_calculate_daily_metrics in Hm.
      exists (rhs m). tauto.
    + intros [r [Hr [Hkey Hdef]]]. exists (mk_merged s r). split; [|reflexivity].
      apply in_calculate_daily_metrics. simpl. tauto.
Qed.

Lemma joined_unless_no_return_witness :
  let aligned_df :=
    [mk_aligned (mk_news (Day 737582) "good" "p") 737584;
     mk_aligned (mk_news (Day 737585) "bad" "q") 737585] in
  let s := mk_sentiment 737584 (Float.of_Q (1 # 2)) 1 in
  In (day s) (map Date sample_stock)
  /\ ((exists m,
          In m (calculate_daily_metrics group_mean
                  (analyze_sentiment sample_polarity aligned_df) sample_stock)
          /\ lhs m = s)
      <-> exists r, In r (with_returns sample_stock)
                    /\ date_only r = day s
                    /\ Float.isnan (daily_return r) = false).
Proof.
  intros aligned_df s.
  apply (joined_unless_no_return group_mean sample_polarity sample_news sample_stock aligned_df).
  - vm_compute. reflexivity.
  - left. reflexivity.
Defined.




(** ** More on the whole run *)

Lemma has_columns_spec (required present : list string) :
  has_columns required present = true
  <-> forall c, In c required -> In c present.
Proof.
  unfold has_columns. rewrite forallb_forall. split; intros H c Hc.
  - apply H in Hc. apply existsb_exists in Hc. destruct Hc as [x [Hx Heq]].
    apply String.eqb_eq in Heq. now subst.
  - apply existsb_exists. exists c. split; [now apply H | apply String.eqb_refl].
Qed.

Lemma has_columns_missing (required present : list string) (c : string) :
  In c required -> ~ In c present -> has_columns required present = false.
Proof.
  intros Hc Hmiss. destruct (has_columns required present) eqn:H; [|reflexivity].
  exfalso. apply Hmiss. now apply (proj1 (has_columns_spec _ _) H).
Qed.

(** X15. A run returns the record of results exactly when every stage
    succeeds: the directory is made, both files load, every news row is
    aligned, the correlation returns, and the table and the plot are
    written. The record then holds the two results of the correlation, the
    number of rows of the joined table, and the two paths below the output
    directory. *)
Theorem run_analysis_success
        (w : world) (symbol output_dir : string)
        (corr p : Float.t) (n : Z) (merged_path viz_path : string) :
  run_analysis w symbol output_dir
  = Return [("symbol"%string, VStr symbol);
            ("correlation"%string, VFloat corr);
            ("p_value"%string, VFloat p);
            ("num_observations"%string, VInt n);
            ("merged_data_path"%string, VStr merged_path);
            ("visualization_path"%string, VStr viz_path)]
  <-> makedirs w output_dir = None
      /\ exists news_df stock_df aligned_df,
          load_data w = Some (news_df, stock_df)
          /\ align_dates news_df stock_df = Return aligned_df
          /\ calculate_correlation (pearsonr w)
               (calculate_daily_metrics (mean w)
                  (analyze_sentiment (polarity w) aligned_df) stock_df)
             = Return (corr, p)
          /\ n = Z.of_nat
                   (List.length
                      (calculate_daily_metrics (mean w)
                         (analyze_sentiment (polarity w) aligned_df) stock_df))
          /\ merged_path
             = path_join output_dir (symbol ++ "_news_stock_merged.csv")%string
          /\ viz_path
             = path_join output_dir (symbol ++ "_correlation_plot.png")%string
          /\ to_csv w merged_path
               (calculate_daily_metrics (mean w)
                  (analyze_sentiment (polarity w) aligned_df) stock_df)
             = None
          /\ visualize_results w viz_path
               (analyze_sentiment (polarity w) aligned_df)
               (calculate_daily_metrics (mean w)
                  (analyze_sentiment (polarity w) aligned_df) stock_df)
             = None.
Proof.
  unfold run_analysis, run_analysis_try. split.
  - intros H.
    destruct (makedirs w output_dir); simpl in H; [discriminate|].
    split; [reflexivity|].
    destruct (load_data w) as [[news_df stock_df]|]; [|discriminate].
    exists news_df, stock_df.
    destruct (align_dates news_df stock_df) as [aligned_df| |];
      simpl in H; try discriminate.
    exists aligned_df. split; [reflexivity|]. split; [reflexivity|].
    destruct (calculate_correlation _ _) as [[corr' p']| |];
      simpl in H; try discriminate.
    destruct (to_csv w _ _) eqn:Hcsv; simpl in H; [discriminate|].
    destruct (visualize_results w _ _ _) eqn:Hviz; simpl in H; [discriminate|].
    injection H as <- <- <- <- <-. repeat split; assumption.
  - intros [Hdir [news_df [stock_df [aligned_df
            [Hload [Halign [Hcorr [-> [-> [-> [Hcsv Hviz]]]]]]]]]]].
    rewrite Hdir, Hload. simpl. rewrite Halign. simpl. rewrite Hcorr. simpl.
    rewrite Hcsv. simpl. rewrite Hviz. reflexivity.
Qed.

Lemma run_analysis_success_witness :
  run_analysis (sample_world None None) "AAPL" "../results"
  = Return [("symbol"%string, VStr "AAPL");
            ("correlation"%string, VFloat Float.one);
            ("p_value"%string, VFloat Float.one);
            ("num_observations"%string, VInt 2);
            ("merged_data_path"%string, VStr "../results/AAPL_news_stock_merged.csv");
            ("visualization_path"%string, VStr "../results/AAPL_correlation_plot.png")].
Proof.
  apply (proj2 (run_analysis_success (sample_world None None) "AAPL" "../results"
                  Float.one Float.one 2
                  "../results/AAPL_news_stock_merged.csv"
                  "../results/AAPL_correlation_plot.png")).
  split; [reflexivity|].
  exists sample_news, sample_stock,
    [mk_aligned (mk_news (Day 737582) "good" "p") 737584;
     mk_aligned (mk_news (Day 737585) "bad" "q") 737585].
  repeat split; vm_compute; reflexivity.
Defined.





(** X17. A file that cannot be read, or that lacks one of its required
    columns ([date], [headline], [publisher] for the news, [Date],
    [Close] for the prices), makes [load_data] return [False], and the run
    then returns the fixed text "Data loading failed": the message of the
    exception that stopped the reading is not part of the result. *)
Theorem run_analysis_load_failure (w : world) (symbol output_dir : string) :
  makedirs w output_dir = None ->
  (exists e, read_news w = Raise e)
  \/ (exists t c, read_news w = Return t
                  /\ In c ["date"; "headline"; "publisher"]%string
                  /\ ~ In c (columns t))
  \/ (exists e, read_stock w = Raise e)
  \/ (exists t c, read_stock w = Return t
                  /\ In c ["Date"; "Close"]%string
                  /\ ~ In c (columns t)) ->
  load_data w = None
  /\ run_analysis w symbol output_dir
     = Return [("error"%string, VStr "Data loading failed")].
Proof.
  intros Hdir Hfail.
  assert (Hload : load_data w = None).
  { unfold load_data.
    destruct Hfail as [[e He]|[[t [c [Ht [Hc Hmiss]]]]|[[e He]|[t [c [Ht [Hc Hmiss]]]]]]].
    - now rewrite He.
    - rewrite Ht. now rewrite (has_columns_missing _ _ c Hc Hmiss).
    - destruct (read_news w) as [tn| |]; try reflexivity.
      destruct (negb (has_columns _ (columns tn))); [reflexivity|].
      now rewrite He.
    - destruct (read_news w) as [tn| |]; try reflexivity.
      destruct (negb (has_columns _ (columns tn))); [reflexivity|].
      rewrite Ht. now rewrite (has_columns_missing _ _ c Hc Hmiss). }
  split; [exact Hload|].
  unfold run_analysis, run_analysis_try. rewrite Hdir, Hload. reflexivity.
Qed.

Lemma run_analysis_load_failure_witness :
  let w :=
    mk_world (fun _ => None)
             (Return (mk_csv ["date"; "headline"]%string sample_news))
             (Return (mk_csv ["Date"; "Close"]%string sample_stock))
             sample_polarity
             group_mean
             (fun _ _ => Return (Float.one, Float.one))
             (fun _ _ => None) (fun _ _ _ => None) in
  load_data w = None
  /\ run_analysis w "AAPL" "../results"
     = Return [("error"%string, VStr "Data loading failed")].
Proof.
  intros w. apply (run_analysis_load_failure w "AAPL" "../results").
  - reflexivity.
  - right. left.
    exists (mk_csv ["date"; "headline"]%string sample_news), "publisher"%string.
    split; [reflexivity|]. split.
    + simpl. tauto.
    + simpl. intuition discriminate.
Defined.

(** ** [StockAnalyzer.load_data] *)

Section AnalyzerLoad.

Variable row : Type.
Variable sort_values : list row -> list row.

Lemma check_columns_ok (required present : list string) :
  StockAnalyzer.check_columns required present = Return tt
  <-> forall c, In c required -> In c present.
Proof.
  induction required as [|col rest IH]; simpl.
  - split; [intros _ c [] | reflexivity].
  - destruct (existsb (String.eqb col) present) eqn:Hcol; simpl.
    + apply existsb_exists in Hcol. destruct Hcol as [x [Hx Heq]].
      apply String.eqb_eq in Heq. subst x.
      rewrite IH. split.
      * intros H c [<-|Hc]; [assumption | now apply H].
      * intros H c Hc. apply H. now right.
    + split; [discriminate|]. intros H. exfalso.
      assert (Hin : In col present) by (apply H; now left).
      assert (Htrue : existsb (String.eqb col) present = true).
      { apply existsb_exists. exists col. split; [assumption | apply String.eqb_refl]. }
      congruence.
Qed.

Lemma check_columns_first_missing (pre post present : list string) (col : string) :
  (forall c, In c pre -> In c present) ->
  ~ In col present ->
  StockAnalyzer.check_columns (pre ++ col :: post) present
  = Raise (ValueError ("Missing required column: " ++ col)).
Proof.
  intros Hpre Hmiss. induction pre as [|c pre IH]; simpl.
  - replace (existsb (String.eqb col) present) with false; [reflexivity|].
    symmetry. destruct (existsb (String.eqb col) present) eqn:H; [|reflexivity].
    exfalso. apply Hmiss. apply existsb_exists in H. destruct H as [x [Hx Heq]].
    apply String.eqb_eq in Heq. now subst.
  - replace (existsb (String.eqb c) present) with true.
    + simpl. apply IH. intros c' Hc'. apply Hpre. now right.
    + symmetry. apply existsb_exists. exists c.
      split; [apply Hpre; now left | apply String.eqb_refl].
Qed.

Lemma check_columns_ends (required present : list string) :
  StockAnalyzer.check_columns required present <> OutOfFuel.
Proof.
  induction required as [|col rest IH]; simpl; [discriminate|].
  destruct (negb (existsb (String.eqb col) present)); [discriminate | exact IH].
Qed.

End AnalyzerLoad.

(** X18. [StockAnalyzer.load_data] returns [True] exactly when the file
    is read and has the columns [Open], [High], [Low], [Close] and
    [Volume]; the object then holds the rows of the file, reordered by
    [sort_values], under the columns of the file, and nothing is printed. *)
Theorem stock_analyzer_load_true
        (row : Type) (sort_values : list row -> list row)
        (read_csv : outcome (csv row))
        (self self' : StockAnalyzer.analyzer row) :
  StockAnalyzer.load_data sort_values read_csv self = Return (true, self')
  <-> exists t,
        read_csv = Return t
        /\ (forall c, In c ["Open"; "High"; "Low"; "Close"; "Volume"]%string ->
                      In c (columns t))
        /\ self' = StockAnalyzer.mk_analyzer
                     (StockAnalyzer.symbol self)
                     (mk_csv (columns t) (sort_values (rows t)))
                     (StockAnalyzer.printed self).
Proof.
  unfold StockAnalyzer.load_data. cbv zeta. split.
  - intros H. destruct read_csv as [t|e|]; try discriminate.
    exists t. split; [reflexivity|].
    cbn [StockAnalyzer.df StockAnalyzer.symbol StockAnalyzer.printed columns] in H.
    destruct (StockAnalyzer.check_columns StockAnalyzer.required_columns (columns t))
      as [[]| |] eqn:Hc; try discriminate.
    pose proof (proj1 (check_columns_ok _ _) Hc) as Hcols.
    split; [exact Hcols|]. congruence.
  - intros [t [-> [Hcols ->]]].
    cbn [StockAnalyzer.df StockAnalyzer.symbol StockAnalyzer.printed columns].
    pose proof (proj2 (check_columns_ok StockAnalyzer.required_columns (columns t))
                      Hcols) as Hc.
    now rewrite Hc.
Qed.

Lemma stock_analyzer_load_true_witness :
  StockAnalyzer.load_data (fun l : list price_row => l)
    (Return (mk_csv ["Date"; "Open"; "High"; "Low"; "Close"; "Volume"]%string
                    sample_stock))
    (StockAnalyzer.init price_row "AAPL")
  = Return (true,
            StockAnalyzer.mk_analyzer "AAPL"
              (mk_csv ["Date"; "Open"; "High"; "Low"; "Close"; "Volume"]%string
                      sample_stock)
              []).
Proof.
  apply (proj2 (stock_analyzer_load_true price_row (fun l => l) _ _ _)).
  eexists. split; [reflexivity|]. split; [|reflexivity].
  intros c Hc. simpl in *. tauto.
Defined.

(** X19. When the file is read but lacks a required column,
    [StockAnalyzer.load_data] returns [False] and prints one line that
    names the first missing column in the order [Open], [High], [Low],
    [Close], [Volume]; the table of the object has been replaced by the
    sorted rows of the file all the same. *)
Theorem stock_analyzer_missing_column
        (row : Type) (sort_values : list row -> list row)
        (t : csv row) (self : StockAnalyzer.analyzer row)
        (pre post : list string) (col : string) :
  ["Open"; "High"; "Low"; "Close"; "Volume"]%string = pre ++ col :: post ->
  (forall c, In c pre -> In c (columns t)) ->
  ~ In col (columns t) ->
  StockAnalyzer.load_data sort_values (Return t) self
  = Return (false,
            StockAnalyzer.mk_analyzer
              (StockAnalyzer.symbol self)
              (mk_csv (columns t) (sort_values (rows t)))
              (StockAnalyzer.printed self
               ++ [("[" ++ StockAnalyzer.symbol self
                    ++ "] Error loading data: Missing required column: "
                    ++ col)%string])).
Proof.
  intros Hreq Hpre Hmiss. unfold StockAnalyzer.load_data. cbv zeta.
  cbn [StockAnalyzer.df StockAnalyzer.symbol StockAnalyzer.printed columns].
  unfold StockAnalyzer.required_columns. rewrite Hreq.
  rewrite (check_columns_first_missing pre post (columns t) col Hpre Hmiss).
  unfold StockAnalyzer.error_line. reflexivity.
Qed.

Lemma stock_analyzer_missing_column_witness :
  StockAnalyzer.load_data (fun l : list price_row => l)
    (Return (mk_csv ["Date"; "Open"; "High"; "Close"]%string sample_stock))
    (StockAnalyzer.init price_row "AAPL")
  = Return (false,
            StockAnalyzer.mk_analyzer "AAPL"
              (mk_csv ["Date"; "Open"; "High"; "Close"]%string sample_stock)
              ([] ++ ["[AAPL] Error loading data: Missing required column: Low"%string])).
Proof.
  apply (stock_analyzer_missing_column price_row (fun l => l)
           (mk_csv ["Date"; "Open"; "High"; "Close"]%string sample_stock)
           (StockAnalyzer.init price_row "AAPL")
           ["Open"; "High"]%string ["Close"; "Volume"]%string "Low").
  - reflexivity.
  - intros c Hc. simpl in *. tauto.
  - simpl. intuition discriminate.
Defined.
